(** * taitung-air-api: the batched time-window aggregation, embedded and verified

    The repository is a set of successive versions of one Express server
    ([server.js]).  Two families of handlers occur:

    - the batch endpoint [/taitung-air-data] (with the diagnostic route
      [/test-single-record]), which asks the upstream open-data service for
      the 73 hourly instants around a reference time and merges the answers;
    - the forecast endpoint [/huadong-air-forecast], one upstream call whose
      records are filtered by area and sorted newest first.

    Part I translates the handlers, one module per endpoint family; inside a
    module a [Version] names the source file, and a definition branches on it
    exactly where the files differ.  Part II proves the properties.

    Modelling conventions.
    - A JavaScript time value is an integer number of milliseconds ([Z]); [NaN]
      is [None].  Wall-clock fields are read in a zone of constant UTC offset
      (the service runs for Asia/Taipei data, and containers run in UTC), so a
      time value is kept relative to local midnight 1970-01-01.  The
      [8.64e15] ms limit of ECMAScript dates (year 275760) is far outside the
      four-digit years the reference format can express and is not modelled.
    - The libraries [moment], [axios] and [Date] are not part of the
      repository.  What they do with a particular string or request is a field
      of the [Host] the handlers run on; the handlers are proved correct for
      every host.
    - A handler is a computation in the monad [IO], whose state is the list of
      upstream requests issued so far.  The fetches of a batch are started in
      the order of the window and [Promise.allSettled] returns their results
      in that order, whenever each of them settles; the upstream answers a
      request by its content.  [console.log] lines are diagnostics and are not
      part of the state. *)

From Stdlib Require Import String Ascii ZArith List Lia Bool Permutation Sorted.
From Stdlib Require Import DecimalString DecimalN.
Import ListNotations.
Open Scope string_scope.
Open Scope list_scope.
Open Scope Z_scope.

(* ===================================================================== *)
(** * Part I: definitions                                                 *)
(* ===================================================================== *)

(** ** Calendar arithmetic behind [Date] and [moment] *)

Module Calendar.

Definition msPerMinute : Z := 60000.
Definition msPerHour : Z := 3600000.
Definition msPerDay : Z := 86400000.

(** Day number (days since 1970-01-01) to proleptic Gregorian
    year, month (1..12) and day of month, as [getFullYear], [getMonth] and
    [getDate] compute them. *)
Definition civil_from_days (z : Z) : Z * Z * Z :=
  let z := z + 719468 in
  let era := z / 146097 in
  let doe := z mod 146097 in
  let yoe := (doe - doe / 1460 + doe / 36524 - doe / 146096) / 365 in
  let doy := doe - (365 * yoe + yoe / 4 - yoe / 100) in
  let mp := (5 * doy + 2) / 153 in
  let d := doy - (153 * mp + 2) / 5 + 1 in
  let m := if mp <? 10 then mp + 3 else mp - 9 in
  (if m <=? 2 then yoe + era * 400 + 1 else yoe + era * 400, m, d).

Definition days_from_civil (y m d : Z) : Z :=
  let y := if m <=? 2 then y - 1 else y in
  let era := y / 400 in
  let yoe := y mod 400 in
  let doy := (153 * (if 2 <? m then m - 3 else m + 9) + 2) / 5 + d - 1 in
  let doe := yoe * 365 + yoe / 4 - yoe / 100 + doy in
  era * 146097 + doe - 719468.

Record Civil : Type := mkCivil
  { year : Z; month : Z; date : Z; hour : Z; minute : Z }.

Definition civil_of_ms (t : Z) : Civil :=
  let '(y, m, d) := civil_from_days (t / msPerDay) in
  let tod := t mod msPerDay in
  {| year := y; month := m; date := d;
     hour := tod / msPerHour;
     minute := (tod mod msPerHour) / msPerMinute |}.

Definition ms_of_civil (c : Civil) : Z :=
  days_from_civil (year c) (month c) (date c) * msPerDay
  + hour c * msPerHour + minute c * msPerMinute.

(** The start of the hour an instant lies in. *)
Definition startOfHour (t : Z) : Z := t - t mod msPerHour.

End Calendar.

(** ** Decimal rendering of numbers in templates and formats *)

Module Text.

Definition of_N (n : N) : string := NilEmpty.string_of_uint (N.to_uint n).
Definition of_nat (n : nat) : string := of_N (N.of_nat n).
Definition of_Z (z : Z) : string :=
  ((if (z <? 0)%Z then "-" else "") ++ of_N (Z.abs_N z))%string.

Fixpoint zeros (n : nat) : string :=
  match n with
  | O => ""
  | S k => String "0" (zeros k)
  end.

(** moment's [zeroFill(number, targetLength)] without forced sign: the sign,
    then [Math.pow(10, zerosToFill).toString().substr(1)], then the digits. *)
Definition zeroFill (number : Z) (targetLength : nat) : string :=
  let absNumber := of_N (Z.abs_N number) in
  let zerosToFill := (targetLength - String.length absNumber)%nat in
  ((if (0 <=? number)%Z then "" else "-") ++ zeros zerosToFill ++ absNumber)%string.

End Text.

(** ** The part of [moment] the server uses *)

Module Moment.
Import Calendar.

Inductive Moment : Type :=
| ValidMoment (t : Z)
| InvalidMoment.

Definition isValid (m : Moment) : bool :=
  match m with
  | ValidMoment _ => true
  | InvalidMoment => false
  end.

(** moments are mutable; [clone] gives a copy that [add] may change.  In a
    pure model the copy is the value itself. *)
Definition clone (m : Moment) : Moment := m.

(** [m.add(i, 'hours')] *)
Definition add_hours (i : Z) (m : Moment) : Moment :=
  match m with
  | ValidMoment t => ValidMoment (t + i * msPerHour)
  | InvalidMoment => InvalidMoment
  end.

(** [m.format('YYYY-MM-DD HH:00')]: the tokens [YYYY], [MM], [DD] and [HH]
    are replaced, every other character, the two zeros included, is
    copied. *)
Definition format_YYYY_MM_DD_HH_00 (m : Moment) : string :=
  match m with
  | ValidMoment t =>
      let c := civil_of_ms t in
      (Text.zeroFill (year c) 4 ++ "-" ++ Text.zeroFill (month c) 2 ++ "-"
       ++ Text.zeroFill (date c) 2 ++ " " ++ Text.zeroFill (hour c) 2 ++ ":00")%string
  | InvalidMoment => "Invalid date"
  end.

End Moment.

(** ** Reading a stamp [YYYY-MM-DD HH:mm] back

    The instant a formatted stamp denotes.  It gives the window its meaning
    (which hour an element stands for) and serves as the date parser of the
    sample hosts. *)

Module Stamp.
Import Calendar.

Definition digit_of (c : ascii) : option Z :=
  let n := nat_of_ascii c in
  if (48 <=? n)%nat && (n <=? 57)%nat then Some (Z.of_nat (n - 48)) else None.

Definition two_digits (a b : ascii) : option Z :=
  match digit_of a, digit_of b with
  | Some x, Some y => Some (10 * x + y)
  | _, _ => None
  end.

Definition unsigned_of (s : string) : option Z :=
  match s with
  | EmptyString => None
  | _ => option_map (fun u => Z.of_N (N.of_uint u)) (NilEmpty.uint_of_string s)
  end.

Definition year_of (s : string) : option Z :=
  match s with
  | String "-" r => option_map Z.opp (unsigned_of r)
  | _ => unsigned_of s
  end.

(** The last twelve characters are [-MM-DD HH:mm]; what precedes them is the
    year. *)
Definition fields_of (s : string) : option Civil :=
  let n := (String.length s - 12)%nat in
  match year_of (substring 0 n s), substring n 12 s with
  | Some y,
    String s1 (String m1 (String m2 (String s2 (String d1 (String d2
      (String s3 (String h1 (String h2 (String s4 (String n1 (String n2
        EmptyString))))))))))) =>
      if (s1 =? "-")%char && (s2 =? "-")%char && (s3 =? " ")%char && (s4 =? ":")%char
      then
        match two_digits m1 m2, two_digits d1 d2, two_digits h1 h2, two_digits n1 n2 with
        | Some mo, Some d, Some h, Some mi =>
            Some {| year := y; month := mo; date := d; hour := h; minute := mi |}
        | _, _, _, _ => None
        end
      else None
  | _, _ => None
  end.

Definition instant_of (s : string) : option Z :=
  option_map ms_of_civil (fields_of s).

(** A check of [p] on [0 .. n-1], run once to settle the two-digit
    fields. *)
Fixpoint forall_below (n : nat) (p : Z -> bool) : bool :=
  match n with
  | O => true
  | S k => p (Z.of_nat k) && forall_below k p
  end.

Definition two_digit_ok (v : Z) : bool :=
  match Text.zeroFill v 2 with
  | String a (String b EmptyString) =>
      match two_digits a b with
      | Some w => w =? v
      | None => false
      end
  | _ => false
  end.

End Stamp.

(** The instant 2025-11-26 00:00. *)
Definition midnight_2025_11_26 : Z :=
  Calendar.ms_of_civil
    {| Calendar.year := 2025; Calendar.month := 11; Calendar.date := 26;
       Calendar.hour := 0; Calendar.minute := 0 |}.

(** ** Values exchanged with the upstream service and with the client *)

Module Data.

(** A record is the mapping of fields the upstream service reports; the
    open-data API gives every field as a string. *)
Definition Record : Type := list (string * string).

(** [r.k]; [None] is [undefined]. *)
Fixpoint get (k : string) (r : Record) : option string :=
  match r with
  | [] => None
  | (k', v) :: r' => if String.eqb k k' then Some v else get k r'
  end.

(** [r.k === s] *)
Definition field_is (k s : string) (r : Record) : bool :=
  match get k r with
  | Some v => String.eqb v s
  | None => false
  end.

#[local] Set Warnings "-register-all".

(** JSON bodies sent to the client. *)
Inductive Json : Type :=
| JNull
| JNum (n : Z)
| JStr (s : string)
| JArr (items : list Json)
| JObj (fields : list (string * Json)).

Definition record_json (r : Record) : Json :=
  JObj (map (fun kv => (fst kv, JStr (snd kv))) r).

Definition records_json (l : list Record) : Json := JArr (map record_json l).

(** A property whose value is [undefined] is left out of the body. *)
Fixpoint defined (fields : list (string * option Json)) : list (string * Json) :=
  match fields with
  | [] => []
  | (k, Some v) :: rest => (k, v) :: defined rest
  | (_, None) :: rest => defined rest
  end.

Fixpoint lookup (k : string) (fields : list (string * Json)) : option Json :=
  match fields with
  | [] => None
  | (k', v) :: rest => if String.eqb k k' then Some v else lookup k rest
  end.

Definition field (k : string) (j : Json) : option Json :=
  match j with
  | JObj fields => lookup k fields
  | _ => None
  end.

(** What axios leaves in [response.data]: [null] for the body [null], the
    raw text when the body is not JSON, otherwise the parsed object, whose
    [records] member is an array or absent. *)
Inductive ResponseData : Type :=
| DataNull
| DataText (text : string)
| DataObject (records : option (list Record)).

Definition data_json (d : ResponseData) : Json :=
  match d with
  | DataNull => JNull
  | DataText s => JStr s
  | DataObject records => JObj (defined [("records", option_map records_json records)])
  end.

(** [!!d] *)
Definition data_truthy (d : ResponseData) : bool :=
  match d with
  | DataNull => false
  | DataText s => negb (String.eqb s "")
  | DataObject _ => true
  end.

End Data.

(** ** Promises, errors and the upstream transport *)

Module Net.
Import Data.

Record Request : Type := mkRequest
  { url : string; params : list (string * string) }.

Record AxiosResponse : Type := mkResponse
  { status : Z; data : ResponseData }.

(** An exception value: [error.message] and, for an axios error that
    carries an upstream answer, [error.response]. *)
Record JsError : Type := mkError
  { message : string; response : option AxiosResponse }.

Inductive Settled (A : Type) : Type :=
| Fulfilled (value : A)
| Rejected (reason : JsError).
Arguments Fulfilled {A} value.
Arguments Rejected {A} reason.

(** What the network does with one request. *)
Inductive Outcome : Type :=
| NoResponse (message : string)
| Responded (status : Z) (data : ResponseData).

(** The world a handler runs in: the environment variable, the two date
    libraries, and the upstream service. *)
Record Host : Type := mkHost
  { env_API_KEY : option string;
    moment : string -> string -> Moment.Moment;
    Date_parse : string -> option Z;
    upstream : Request -> Outcome }.

(** The state of a handler run is the list of requests issued so far. *)
Definition IO (A : Type) : Type := list Request -> A * list Request.

Definition ret {A : Type} (a : A) : IO A := fun issued => (a, issued).

Definition bind {A B : Type} (c : IO A) (k : A -> IO B) : IO B :=
  fun issued => let (a, issued') := c issued in k a issued'.

Fixpoint mapM {A B : Type} (f : A -> IO B) (l : list A) : IO (list B) :=
  match l with
  | [] => ret []
  | x :: rest =>
      bind (f x) (fun y => bind (mapM f rest) (fun ys => ret (y :: ys)))
  end.

(** [axios.get(url, { params })]: the request goes out; the promise is
    fulfilled for a status in 200..299 and rejected otherwise. *)
Definition axios_get (h : Host) (url : string) (params : list (string * string))
  : IO (Settled AxiosResponse) :=
  fun issued =>
    let request := {| url := url; params := params |} in
    (match upstream h request with
     | NoResponse msg => Rejected {| message := msg; response := None |}
     | Responded st d =>
         if (200 <=? st) && (st <? 300)
         then Fulfilled {| status := st; data := d |}
         else Rejected
                {| message := ("Request failed with status code " ++ Text.of_Z st)%string;
                   response := Some {| status := st; data := d |} |}
     end, issued ++ [request]).

(** The call fails at the transport level: axios rejects the promise. *)
Definition rejects (o : Outcome) : bool :=
  match o with
  | NoResponse _ => true
  | Responded st _ => negb ((200 <=? st) && (st <? 300))
  end.

(** [response.data.records]: reading a property of [null] throws, a string
    has no such property. *)
Definition data_records (d : ResponseData) : JsError + option (list Record) :=
  match d with
  | DataNull =>
      inl {| message := "Cannot read properties of null (reading 'records')";
             response := None |}
  | DataText _ => inr None
  | DataObject records => inr records
  end.

(** [v || []] for an array or [undefined]. *)
Definition or_empty (v : option (list Record)) : list Record :=
  match v with
  | Some l => l
  | None => []
  end.

(** [process.env.API_KEY || ''] *)
Definition key_or_empty (h : Host) : string :=
  match env_API_KEY h with
  | Some k => k
  | None => ""
  end.

(** [!s] for a string *)
Definition not_str (s : string) : bool := String.eqb s "".

Record HttpResponse : Type := mkHttp
  { statusCode : Z; body : Json }.

(** [res.json(b)] *)
Definition res_json (b : Json) : HttpResponse := {| statusCode := 200; body := b |}.
(** [res.status(c).json(b)] *)
Definition res_status_json (c : Z) (b : Json) : HttpResponse :=
  {| statusCode := c; body := b |}.

End Net.

Notation "x <- c ;; k" := (Net.bind c (fun x => k))
  (at level 61, c at next level, right associativity).

(** ** [Date] arithmetic and [Array.prototype.sort] *)

Module Js.
Import Data Net.

(** [new Date(v)] as a time value, for a field that is a string or
    [undefined]. *)
Definition new_Date (h : Host) (v : option string) : option Z :=
  match v with
  | Some s => Date_parse h s
  | None => None
  end.

(** [a - b] on numbers; [NaN] is contagious. *)
Definition minus (a b : option Z) : option Z :=
  match a, b with
  | Some x, Some y => Some (x - y)
  | _, _ => None
  end.

(** The time value of the field [name] of a record. *)
Definition time_of (h : Host) (name : string) (r : Record) : option Z :=
  new_Date h (get name r).

(** The field [name] of the record is a date. *)
Definition dated (h : Host) (name : string) (r : Record) : bool :=
  match time_of h name r with
  | Some _ => true
  | None => false
  end.

(** [a] is not later than [b] by the field [name]. *)
Definition not_later (h : Host) (name : string) (a b : Record) : Prop :=
  match time_of h name a, time_of h name b with
  | Some x, Some y => x <= y
  | _, _ => False
  end.

Section Sort.
Context {A : Type}.
Variable comparefn : A -> A -> option Z.

(** SortCompare says [x] goes after [y] when [comparefn x y > 0]; a
    [NaN] result counts as [+0]. *)
Definition goes_after (x y : A) : bool :=
  match comparefn x y with
  | Some v => 0 <? v
  | None => false
  end.

Fixpoint insert (x : A) (l : list A) : list A :=
  match l with
  | [] => [x]
  | y :: rest => if goes_after x y then y :: insert x rest else x :: l
  end.

(** [l.sort(comparefn)]: the sort is stable, and for a comparator that
    orders by a key every stable sort gives this result. *)
Fixpoint sort (l : list A) : list A :=
  match l with
  | [] => []
  | x :: rest => insert x (sort rest)
  end.

(** *** Notions the statements about sorting use *)

Variable key : A -> Z.

(** On the elements of [l] the comparator is the difference of the keys. *)
Definition keyed (l : list A) : Prop :=
  forall a b, In a l -> In b l -> comparefn a b = Some (key a - key b).

Definition key_le (a b : A) : Prop := key a <= key b.

Definition with_key (k : Z) (a : A) : bool := key a =? k.
End Sort.

Arguments key_le {A} key a b.
Arguments with_key {A} key k a.

(** The time value of a dated record, as a key. *)
Definition stamp_key (h : Host) (name : string) (r : Record) : Z :=
  match time_of h name r with
  | Some t => t
  | None => 0
  end.

(** The two comparators of the server, over any field:
    [new Date(a.name) - new Date(b.name)] and its reverse. *)
Definition ascending (h : Host) (name : string) (a b : Record) : option Z :=
  minus (new_Date h (get name a)) (new_Date h (get name b)).

Definition descending (h : Host) (name : string) (a b : Record) : option Z :=
  minus (new_Date h (get name b)) (new_Date h (get name a)).

End Js.

(** ** The batch endpoint: [/taitung-air-data] and [/test-single-record]

    Three files carry this server.  [part_003] is the first complete one.
    [part_004] (its second [server.js], lines 85-239) moves the reference time
    to midnight, lets [fetchDataByTime] refuse to run without a key, and adds
    the route [/test-single-record] on top of [fetchDataByTime].  [part_002]
    has the batch handler of [part_003] with an earlier [/test-single-record]
    that calls axios itself. *)

Module Batch.
Import Data Net Moment.

Inductive Version : Type := part_003 | part_004.

Definition BASE_URL : string := "https://data.epa.gov.tw/api/v2/aqx_p_152".
Definition SITE_NAME : string := "臺東".
Definition COUNTY_NAME : string := "臺東縣".

Definition REFERENCE_TIME_STR (v : Version) : string :=
  match v with
  | part_003 => "2025-11-26 17:00"
  | part_004 => "2025-11-26 00:00"
  end.

(** [const API_KEY = process.env.API_KEY || ''] *)
Definition API_KEY (h : Host) : string := key_or_empty h.

Definition fetch_params (h : Host) (monitorDate : string) : list (string * string) :=
  [("api_key", API_KEY h); ("sitename", SITE_NAME); ("county", COUNTY_NAME);
   ("monitordate", monitorDate); ("limit", "1000"); ("format", "json")].

(** [async function fetchDataByTime(monitorDate)] (part_003 lines 30-52,
    part_004 lines 114-140).  The [throw] of part_004 stands before the
    [try], so it rejects the promise; everything inside the [try] ends in
    [return []] when it throws. *)
Definition fetchDataByTime (v : Version) (h : Host) (monitorDate : string)
  : IO (Settled (list Record)) :=
  if match v with
     | part_003 => false
     | part_004 => not_str (API_KEY h)
     end
  then ret (Rejected {| message := "API Key 環境變數未設置。"; response := None |})
  else
    let params := fetch_params h monitorDate in
    (* try *)
    response <- axios_get h BASE_URL params ;;
    match response with
    | Fulfilled response =>
        match data_records (data response) with
        | inr records => ret (Fulfilled (or_empty records))
        | inl error => (* catch *) ret (Fulfilled [])
        end
    | Rejected error => (* catch *) ret (Fulfilled [])
    end.

(** The [for] loop [for (let i = lo; i <= hi; i++)]: the values [i] takes. *)
Definition for_range (lo hi : Z) : list Z :=
  map (fun k => lo + Z.of_nat k) (seq 0 (Z.to_nat (hi - lo + 1))).

(** Lines 72-78 of part_003: the window of target times. *)
Definition allMonitorTimes (referenceMoment : Moment) : list string :=
  map (fun i => format_YYYY_MM_DD_HH_00 (add_hours i (clone referenceMoment)))
      (for_range (-36) 36).

(** The [results.forEach] loop (part_003 lines 88-96): the state is
    [(allData, successfulRequests)]. *)
Definition collect_step (acc : list Record * nat) (result : Settled (list Record))
  : list Record * nat :=
  let (allData, successfulRequests) := acc in
  match result with
  | Fulfilled value =>
      if (0 <? length value)%nat
      then (allData ++ value, S successfulRequests)
      else acc
  | Rejected _ => acc
  end.

Definition collect (results : list (Settled (list Record))) : list Record * nat :=
  fold_left collect_step results ([], O).

(** [(a, b) => new Date(a.monitordate) - new Date(b.monitordate)] *)
Definition by_monitordate (h : Host) (a b : Record) : option Z :=
  Js.minus (Js.new_Date h (get "monitordate" a)) (Js.new_Date h (get "monitordate" b)).

(** The loop and the sort together: from the settled results to the data
    that is sent and the count that is reported. *)
Definition aggregate (h : Host) (results : list (Settled (list Record)))
  : list Record * nat :=
  let (allData, successfulRequests) := collect results in
  (Js.sort (by_monitordate h) allData, successfulRequests).

Definition summary (successfulRequests total : nat) : string :=
  ("成功取得 " ++ Text.of_nat successfulRequests ++ " 個小時，共 "
   ++ Text.of_nat total ++ " 筆測項紀錄。")%string.

Definition guidance (v : Version) : string :=
  match v with
  | part_003 => "請在 Zeabur 環境變數或本地 .env 檔案中設定 KEY 為 API_KEY 的值。"
  | part_004 => "請在 Zeabur 環境變數中設定 KEY 為 API_KEY 的值。"
  end.

(** [app.get('/taitung-air-data', ...)] (part_003 lines 56-111, part_004
    lines 144-194).  [Promise.allSettled] over the mapped promises gives the
    settled results in the order of the window. *)
Definition taitung_air_data (v : Version) (h : Host) : IO HttpResponse :=
  if not_str (API_KEY h) then
    ret (res_status_json 500
           (JObj [("error", JStr "服務配置錯誤：API Key 未設定。");
                  ("guidance", JStr (guidance v))]))
  else
    let referenceMoment := moment h (REFERENCE_TIME_STR v) "YYYY-MM-DD HH:mm" in
    if negb (isValid referenceMoment) then
      ret (res_status_json 400
             (JObj [("error", JStr "參考時間格式無效，請檢查 REFERENCE_TIME_STR 設定。")]))
    else
      let allMonitorTimes := allMonitorTimes referenceMoment in
      results <- mapM (fetchDataByTime v h) allMonitorTimes ;;
      let (allData, successfulRequests) := aggregate h results in
      ret (res_json
             (JObj (defined
                [("status", Some (JStr "success"));
                 ("time_range_start", option_map JStr (nth_error allMonitorTimes 0));
                 ("time_range_end",
                   option_map JStr
                     (nth_error allMonitorTimes (length allMonitorTimes - 1)));
                 ("summary", Some (JStr (summary successfulRequests (length allData))));
                 ("data", Some (records_json allData))]))).

Definition TEST_DATE : string := "2025-11-26 17:00".

Definition pm25_or_note (records : list Record) : Json :=
  match find (field_is "itemengname" "PM2.5") records with
  | Some pm25Record => record_json pm25Record
  | None => JStr "未找到 PM2.5 紀錄"
  end.

Definition test_success (records : list Record) : HttpResponse :=
  res_json
    (JObj [("status", JStr "success");
           ("test_target", JStr ("臺東測站 @ " ++ TEST_DATE)%string);
           ("total_records_found", JNum (Z.of_nat (length records)));
           ("pm25_record", pm25_or_note records);
           ("all_records_for_test", records_json records)]).

Definition test_failure (error : JsError) : HttpResponse :=
  res_status_json 500
    (JObj [("status", JStr "error");
           ("message", JStr "單點測試時發生錯誤");
           ("detail", JStr (message error))]).

Definition test_no_key : HttpResponse :=
  res_status_json 500 (JObj [("error", JStr "API Key 未設置，無法測試。")]).

(** [app.get('/test-single-record', ...)] of part_004 (lines 199-231): the
    records come from [fetchDataByTime]. *)
Definition test_single_record_part_004 (h : Host) : IO HttpResponse :=
  if not_str (API_KEY h) then ret test_no_key
  else
    (* try *)
    records <- fetchDataByTime part_004 h TEST_DATE ;;
    match records with
    | Fulfilled records => ret (test_success records)
    | Rejected error => (* catch *) ret (test_failure error)
    end.

(** [app.get('/test-single-record', ...)] of part_002 (lines 70-117): the
    route has its own constants and calls axios itself. *)
Definition test_single_record_part_002 (h : Host) : IO HttpResponse :=
  let TEST_SITE := "臺東" in
  let COUNTY_NAME := "臺東縣" in
  let BASE_URL := "https://data.epa.gov.tw/api/v2/aqx_p_152" in
  let API_KEY := key_or_empty h in
  let params :=
    [("api_key", API_KEY); ("sitename", TEST_SITE); ("county", COUNTY_NAME);
     ("monitordate", TEST_DATE); ("limit", "1000"); ("format", "json")] in
  if not_str API_KEY then ret test_no_key
  else
    (* try *)
    response <- axios_get h BASE_URL params ;;
    match response with
    | Fulfilled response =>
        match data_records (data response) with
        | inr records => ret (test_success (or_empty records))
        | inl error => (* catch *) ret (test_failure error)
        end
    | Rejected error => (* catch *) ret (test_failure error)
    end.

(** *** Notions the statements about the batch endpoint use *)

(** The request a fetch for [monitorDate] sends. *)
Definition request_for (h : Host) (monitorDate : string) : Request :=
  {| url := BASE_URL; params := fetch_params h monitorDate |}.

(** A fetch that settled successfully with at least one record. *)
Definition productive (result : Settled (list Record)) : bool :=
  match result with
  | Fulfilled (_ :: _) => true
  | _ => false
  end.

Definition records_of (result : Settled (list Record)) : list Record :=
  match result with
  | Fulfilled value => value
  | Rejected _ => []
  end.

(** The failures of a fetch: no answer from the network, a status outside
    200..299, or a body that is not a JSON object. *)
Definition fetch_fails (o : Outcome) : bool :=
  match o with
  | NoResponse _ => true
  | Responded st d =>
      negb ((200 <=? st) && (st <? 300))
      || match d with
         | DataObject _ => false
         | _ => true
         end
  end.

(** The records a fetch returns when the network does [o] with its request. *)
Definition yield (o : Outcome) : list Record :=
  match o with
  | Responded st d =>
      if (200 <=? st) && (st <? 300)
      then match d with
           | DataObject records => or_empty records
           | _ => []
           end
      else []
  | NoResponse _ => []
  end.

(** What a fetch for [monitorDate] returns on the host [h]. *)
Definition fetched (h : Host) (monitorDate : string) : list Record :=
  yield (upstream h (request_for h monitorDate)).

(** A mock transport: the request for the [i]-th instant of [times] gets the
    [i]-th outcome of [outcomes]. *)
Fixpoint scripted_answer (times : list string) (outcomes : list Outcome)
  (monitorDate : string) : Outcome :=
  match times, outcomes with
  | time :: times', outcome :: outcomes' =>
      if String.eqb monitorDate time then outcome
      else scripted_answer times' outcomes' monitorDate
  | _, _ => NoResponse "no such instant"
  end.

Definition scripted (times : list string) (outcomes : list Outcome) (request : Request)
  : Outcome :=
  match get "monitordate" (params request) with
  | Some monitorDate => scripted_answer times outcomes monitorDate
  | None => NoResponse "no instant asked for"
  end.

(** The host [h] with its upstream replaced. *)
Definition with_upstream (h : Host) (service : Request -> Outcome) : Host :=
  {| env_API_KEY := env_API_KEY h;
     moment := moment h;
     Date_parse := Date_parse h;
     upstream := service |}.

(** In the batch path the key is set; part_003 does not look at it. *)
Definition may_fetch (v : Version) (h : Host) : Prop :=
  v = part_003 \/ not_str (API_KEY h) = false.

(** The reference moment and the window of a run. *)
Definition referenceMoment (v : Version) (h : Host) : Moment :=
  moment h (REFERENCE_TIME_STR v) "YYYY-MM-DD HH:mm".

Definition window (v : Version) (h : Host) : list string :=
  allMonitorTimes (referenceMoment v h).

(** The settled results of the fetches of a run. *)
Definition results_of (v : Version) (h : Host) (issued : list Request)
  : list (Settled (list Record)) :=
  fst (mapM (fetchDataByTime v h) (window v h) issued).

(** Two records with the same timestamp. *)
Definition same_time (h : Host) (a b : Record) : bool :=
  match Js.time_of h "monitordate" a, Js.time_of h "monitordate" b with
  | Some x, Some y => x =? y
  | _, _ => false
  end.

(** Two fetch results share a timestamp. *)
Definition share_timestamp (h : Host) (r1 r2 : Settled (list Record)) : bool :=
  existsb (fun a => existsb (same_time h a) (records_of r2)) (records_of r1).

(** No timestamp occurs in two different fetch results. *)
Fixpoint separate_timestamps (h : Host) (results : list (Settled (list Record))) : bool :=
  match results with
  | [] => true
  | r :: rest =>
      forallb (fun r' => negb (share_timestamp h r r')) rest
      && separate_timestamps h rest
  end.

(** All the records of the results. *)
Definition all_records (results : list (Settled (list Record))) : list Record :=
  concat (map records_of results).

End Batch.

(** ** The forecast endpoint: [/huadong-air-forecast]

    [server.js], [part_001] (its first [server.js], where the handler is the
    function [getHuadongAirForecast]) and [part_004] (its first [server.js],
    lines 1-85) differ in the resource they ask for, in what is sent when no
    record matches, and in how an error is reported. *)

Module Forecast.
Import Data Net.

Inductive Version : Type := server_js | part_001 | part_004.

Definition BASE_URL : string := "https://data.moenv.gov.tw/api/v2/".
Definition RESOURCE_CODE : string := "aqf_p_01".
Definition RESOURCE_ID : string := "226e6d3c-4232-4ec5-aec8-688894aa1f67".
Definition TARGET_AREA : string := "花東".

Definition API_ENDPOINT (v : Version) : string :=
  match v with
  | server_js | part_001 => (BASE_URL ++ RESOURCE_CODE)%string
  | part_004 => (BASE_URL ++ RESOURCE_ID)%string
  end.

(** [process.env.API_KEY || ''], and in part_001 [process.env.API_KEY]
    itself: an unset variable and the empty string are both falsy, and the
    key is only sent when it is set. *)
Definition API_KEY (h : Host) : string := key_or_empty h.

(** [(a, b) => new Date(b.publishtime) - new Date(a.publishtime)] *)
Definition by_publishtime_desc (h : Host) (a b : Record) : option Z :=
  Js.minus (Js.new_Date h (get "publishtime" b)) (Js.new_Date h (get "publishtime" a)).

(** Filter, then sort in place. *)
Definition huadongRecords (h : Host) (allRecords : list Record) : list Record :=
  Js.sort (by_publishtime_desc h)
          (filter (fun record => field_is "area" TARGET_AREA record) allRecords).

Definition summary (all matching : nat) : string :=
  ("成功取得共 " ++ Text.of_nat all ++ " 筆紀錄，其中 " ++ Text.of_nat matching
   ++ " 筆為 " ++ TARGET_AREA ++ " 預報。")%string.

Definition data_field (v : Version) (huadongRecords : list Record) : Json :=
  match v with
  | part_004 => records_json huadongRecords
  | server_js | part_001 =>
      if (0 <? length huadongRecords)%nat
      then records_json huadongRecords
      else JStr "API 連線成功，但目前沒有找到符合『花東』地區的預報紀錄。"
  end.

Definition success (v : Version) (h : Host) (allRecords : list Record) : HttpResponse :=
  let huadongRecords := huadongRecords h allRecords in
  res_json
    (JObj [("status", JStr "success");
           ("source_api", JStr (API_ENDPOINT v));
           ("filter_area", JStr TARGET_AREA);
           ("summary", JStr (summary (length allRecords) (length huadongRecords)));
           ("data", data_field v huadongRecords)]).

Definition no_key (v : Version) : HttpResponse :=
  res_status_json 500
    (JObj [("status", JStr "error");
           ("message", JStr "服務配置錯誤：API Key 環境變數未設定。");
           ("guidance",
             JStr match v with
                  | part_001 => "請在 .env 檔案中設定 API_KEY，並確保 Zeabur 環境變數已設定。"
                  | server_js | part_004 =>
                      "請在 Zeabur 儀表板的環境變數中設定 KEY 為 API_KEY，並填入您的金鑰值。"
                  end)]).

(** The [catch] block. *)
Definition failure (v : Version) (error : JsError) : HttpResponse :=
  match v with
  | server_js =>
      res_status_json 500
        (JObj [("status", JStr "error");
               ("message", JStr "呼叫環境部 API 時發生連線或內部錯誤。");
               ("detail", JStr (message error))])
  | part_004 =>
      res_status_json 500
        (JObj [("status", JStr "error");
               ("message", JStr "呼叫環境部 API 時發生錯誤。請檢查您的 API Key 是否有效。");
               ("detail", JStr (message error))])
  | part_001 =>
      match response error with
      | Some r =>
          res_status_json (status r)
            (JObj [("status", JStr "api_error");
                   ("message", JStr ("環境部 API 錯誤碼 " ++ Text.of_Z (status r))%string);
                   ("details",
                     if data_truthy (data r) then data_json (data r)
                     else JStr "無詳細錯誤訊息")])
      | None =>
          res_status_json 500
            (JObj [("status", JStr "server_error");
                   ("message", JStr "呼叫環境部 API 時發生連線或內部錯誤。");
                   ("detail", JStr (message error))])
      end
  end.

(** [app.get('/huadong-air-forecast', ...)] (server.js lines 25-77, part_004
    lines 26-78) and [getHuadongAirForecast] (part_001 lines 36-94). *)
Definition huadong_air_forecast (v : Version) (h : Host) : IO HttpResponse :=
  if not_str (API_KEY h) then ret (no_key v)
  else
    let params := [("api_key", API_KEY h); ("limit", "1000"); ("format", "json")] in
    (* try *)
    response <- axios_get h (API_ENDPOINT v) params ;;
    match response with
    | Fulfilled response =>
        match data_records (data response) with
        | inr records => ret (success v h (or_empty records))
        | inl error => (* catch *) ret (failure v error)
        end
    | Rejected error => (* catch *) ret (failure v error)
    end.

(** *** Notions the statements about the forecast endpoint use *)

(** The one request of a run. *)
Definition request_of (v : Version) (h : Host) : Request :=
  {| url := API_ENDPOINT v;
     params := [("api_key", API_KEY h); ("limit", "1000"); ("format", "json")] |}.

(** The records that are in the target area. *)
Definition in_area (allRecords : list Record) : list Record :=
  filter (fun record => field_is "area" TARGET_AREA record) allRecords.

End Forecast.

(** ** Sample hosts and data, used to run the handlers on concrete inputs *)

Module Sample.
Import Data Net Moment.

(** A date library that reads the canonical stamps. *)
Definition read_moment (s format : string) : Moment :=
  match Stamp.instant_of s with
  | Some t => ValidMoment t
  | None => InvalidMoment
  end.

Definition reading (item monitordate concentration : string) : Record :=
  [("sitename", "臺東"); ("county", "臺東縣"); ("itemengname", item);
   ("monitordate", monitordate); ("concentration", concentration)].

Definition forecast (area publishtime aqi : string) : Record :=
  [("area", area); ("publishtime", publishtime); ("aqi", aqi)].

(** An upstream service that knows a few hours, answers some of them badly,
    and is unreachable for the rest. *)
Definition answer (monitorDate : string) : Outcome :=
  if String.eqb monitorDate "2025-11-25 23:00" then
    Responded 200 (DataObject (Some [reading "PM2.5" "2025-11-25 23:00" "12";
                                     reading "O3" "2025-11-25 23:00" "31"]))
  else if String.eqb monitorDate "2025-11-26 00:00" then
    Responded 200 (DataObject (Some [reading "PM2.5" "2025-11-26 00:00" "9"]))
  else if String.eqb monitorDate "2025-11-26 01:00" then
    Responded 200 (DataObject (Some []))
  else if String.eqb monitorDate "2025-11-26 02:00" then
    Responded 200 (DataObject None)
  else if String.eqb monitorDate "2025-11-26 03:00" then
    Responded 503 DataNull
  else if String.eqb monitorDate "2025-11-26 04:00" then
    Responded 200 (DataText "<html>busy</html>")
  else NoResponse "connect ETIMEDOUT".

Definition service (request : Request) : Outcome :=
  match get "monitordate" (params request) with
  | Some monitorDate => answer monitorDate
  | None =>
      Responded 200
        (DataObject (Some [forecast "花東" "2025-11-25 16:30" "41";
                           forecast "北部" "2025-11-26 10:30" "55";
                           forecast "花東" "2025-11-26 10:30" "38";
                           forecast "花東" "2025-11-26 16:30" "35"]))
  end.

Definition host : Host :=
  {| env_API_KEY := Some "sample-key";
     moment := read_moment;
     Date_parse := Stamp.instant_of;
     upstream := service |}.

(** The network is down. *)
Definition offline : Host :=
  {| env_API_KEY := Some "sample-key";
     moment := read_moment;
     Date_parse := Stamp.instant_of;
     upstream := fun _ => NoResponse "getaddrinfo EAI_AGAIN data.epa.gov.tw" |}.

(** [API_KEY] is not set. *)
Definition keyless : Host :=
  {| env_API_KEY := None;
     moment := read_moment;
     Date_parse := Stamp.instant_of;
     upstream := service |}.

(** The date library rejects the reference string. *)
Definition unread_reference : Host :=
  {| env_API_KEY := Some "sample-key";
     moment := fun _ _ => InvalidMoment;
     Date_parse := Stamp.instant_of;
     upstream := service |}.

(** Two fetch results whose records carry the same timestamp, in the two
    orders, and two whose timestamps differ. *)
Definition pm25_at_five : Record := reading "PM2.5" "2025-11-26 05:00" "14".
Definition ozone_at_five : Record := reading "O3" "2025-11-26 05:00" "27".
Definition ozone_at_four : Record := reading "O3" "2025-11-26 04:00" "29".

Definition tied : list (Settled (list Record)) :=
  [Fulfilled [pm25_at_five]; Fulfilled [ozone_at_five]].
Definition tied_swapped : list (Settled (list Record)) :=
  [Fulfilled [ozone_at_five]; Fulfilled [pm25_at_five]].

Definition interleaved : list (Settled (list Record)) :=
  [Fulfilled [pm25_at_five]; Fulfilled [ozone_at_four]].
Definition interleaved_swapped : list (Settled (list Record)) :=
  [Fulfilled [ozone_at_four]; Fulfilled [pm25_at_five]].

(** A reading and a forecast whose date field is empty, and where they turn
    up: one fetch result with the undated reading between a later and an
    earlier one, and a forecast service that lists an undated record between
    an older and a newer one. *)
Definition undated_reading : Record := reading "SO2" "" "3".

Definition undated_between : list (Settled (list Record)) :=
  [Fulfilled [pm25_at_five; undated_reading; ozone_at_four]].

Definition older_forecast : Record := forecast "花東" "2025-11-25 16:30" "41".
Definition undated_forecast : Record := forecast "花東" "" "40".
Definition newer_forecast : Record := forecast "花東" "2025-11-26 16:30" "35".

Definition undated_forecasts : Host :=
  {| env_API_KEY := Some "sample-key";
     moment := read_moment;
     Date_parse := Stamp.instant_of;
     upstream := fun _ =>
       Responded 200
         (DataObject (Some [older_forecast; undated_forecast; newer_forecast])) |}.

End Sample.

(** ** The first forecast server: [part_000]

    The handler of [part_000] (lines 26-76) asks for the resource by its id
    and always sends the array, as [part_004] does; what sets it apart is the
    key, which falls back to a literal when the variable is not set. *)

Module Part000.
Import Data Net.

Definition BUILT_IN_KEY : string := "0476db62-ac45-42aa-a868-9b1e57f72746".

(** [const API_KEY = process.env.API_KEY || '0476db62-...']: an unset
    variable and the empty string are both falsy. *)
Definition API_KEY (h : Host) : string :=
  match env_API_KEY h with
  | Some k => if not_str k then BUILT_IN_KEY else k
  | None => BUILT_IN_KEY
  end.

Definition API_ENDPOINT : string := (Forecast.BASE_URL ++ Forecast.RESOURCE_ID)%string.

Definition request_of (h : Host) : Request :=
  {| url := API_ENDPOINT;
     params := [("api_key", API_KEY h); ("limit", "1000"); ("format", "json")] |}.

Definition no_key : HttpResponse :=
  res_status_json 500
    (JObj [("status", JStr "error");
           ("message", JStr "服務配置錯誤：API Key 未設定。");
           ("guidance", JStr "請在 Zeabur 環境變數中設定 KEY 為 API_KEY 的值。")]).

Definition success (h : Host) (allRecords : list Record) : HttpResponse :=
  let huadongRecords := Forecast.huadongRecords h allRecords in
  res_json
    (JObj [("status", JStr "success");
           ("source_api", JStr API_ENDPOINT);
           ("filter_area", JStr Forecast.TARGET_AREA);
           ("summary",
             JStr (Forecast.summary (length allRecords) (length huadongRecords)));
           ("data", records_json huadongRecords)]).

Definition failure (error : JsError) : HttpResponse :=
  res_status_json 500
    (JObj [("status", JStr "error");
           ("message", JStr "呼叫環保署 API 時發生錯誤，請檢查 API Key 或網路連線。");
           ("detail", JStr (message error))]).

(** [app.get('/huadong-air-forecast', ...)] (part_000 lines 26-76). *)
Definition huadong_air_forecast (h : Host) : IO HttpResponse :=
  if not_str (API_KEY h) then ret no_key
  else
    let params := [("api_key", API_KEY h); ("limit", "1000"); ("format", "json")] in
    (* try *)
    response <- axios_get h API_ENDPOINT params ;;
    match response with
    | Fulfilled response =>
        match data_records (data response) with
        | inr records => ret (success h (or_empty records))
        | inl error => (* catch *) ret (failure error)
        end
    | Rejected error => (* catch *) ret (failure error)
    end.

End Part000.

(** ** The last forecast server: the second [server.js] of [part_001]

    Lines 144-223 of [part_001] repeat the handler of [server.js]; the
    guidance sent without a key is shorter. *)

Module Part001Final.
Import Data Net.

Definition API_KEY (h : Host) : string := key_or_empty h.

Definition API_ENDPOINT : string := (Forecast.BASE_URL ++ Forecast.RESOURCE_CODE)%string.

Definition no_key : HttpResponse :=
  res_status_json 500
    (JObj [("status", JStr "error");
           ("message", JStr "服務配置錯誤：API Key 環境變數未設定。");
           ("guidance", JStr "請在 Zeabur 儀表板的環境變數中設定 KEY 為 API_KEY。")]).

(** [app.get('/huadong-air-forecast', ...)] (part_001 lines 167-216). *)
Definition huadong_air_forecast (h : Host) : IO HttpResponse :=
  if not_str (API_KEY h) then ret no_key
  else
    let params := [("api_key", API_KEY h); ("limit", "1000"); ("format", "json")] in
    (* try *)
    response <- axios_get h API_ENDPOINT params ;;
    match response with
    | Fulfilled response =>
        match data_records (data response) with
        | inr records =>
            let allRecords := or_empty records in
            let huadongRecords := Forecast.huadongRecords h allRecords in
            ret (res_json
                   (JObj [("status", JStr "success");
                          ("source_api", JStr API_ENDPOINT);
                          ("filter_area", JStr Forecast.TARGET_AREA);
                          ("summary",
                            JStr (Forecast.summary (length allRecords)
                                                   (length huadongRecords)));
                          ("data",
                            if (0 <? length huadongRecords)%nat
                            then records_json huadongRecords
                            else JStr "API 連線成功，但目前沒有找到符合『花東』地區的預報紀錄。")]))
        | inl error =>
            (* catch *)
            ret (res_status_json 500
                   (JObj [("status", JStr "error");
                          ("message", JStr "呼叫環境部 API 時發生連線或內部錯誤。");
                          ("detail", JStr (message error))]))
        end
    | Rejected error =>
        (* catch *)
        ret (res_status_json 500
               (JObj [("status", JStr "error");
                      ("message", JStr "呼叫環境部 API 時發生連線或內部錯誤。");
                      ("detail", JStr (message error))]))
    end.

End Part001Final.

(** ** The batch server of [part_002], whose handler registers a route

    In [part_002] the call [app.get('/test-single-record', ...)] (lines
    70-117) stands inside the handler of [/taitung-air-data], after the key
    check.  The router is part of the state: it starts with the one route the
    file registers when it is loaded and grows when the handler runs. *)

Module Part002.
Import Data Net Moment.

Inductive Handler : Type := TaitungAirData | TestSingleRecord.

(** The routes, in the order of registration. *)
Definition App : Type := list (string * Handler).

(** [app.get(path, handler)] *)
Definition app_get (path : string) (handler : Handler) (app : App) : App :=
  app ++ [(path, handler)].

(** The router once the file is loaded (line 56). *)
Definition loaded : App := app_get "/taitung-air-data" TaitungAirData [].

Definition REFERENCE_TIME_STR : string := "2025-11-26 17:00".

(** [fetchDataByTime] (lines 30-52) is the text of part_003. *)
Definition fetchDataByTime (h : Host) (monitorDate : string)
  : IO (Settled (list Record)) :=
  Batch.fetchDataByTime Batch.part_003 h monitorDate.

(** [app.get('/taitung-air-data', ...)] (part_002 lines 56-172). *)
Definition taitung_air_data (h : Host) (app : App) : IO (HttpResponse * App) :=
  if not_str (Batch.API_KEY h) then
    ret (res_status_json 500
           (JObj [("error", JStr "服務配置錯誤：API Key 未設定。");
                  ("guidance",
                    JStr "請在 Zeabur 環境變數或本地 .env 檔案中設定 KEY 為 API_KEY 的值。")]),
         app)
  else
    let app := app_get "/test-single-record" TestSingleRecord app in
    let referenceMoment := moment h REFERENCE_TIME_STR "YYYY-MM-DD HH:mm" in
    if negb (isValid referenceMoment) then
      ret (res_status_json 400
             (JObj [("error", JStr "參考時間格式無效，請檢查 REFERENCE_TIME_STR 設定。")]),
           app)
    else
      let allMonitorTimes := Batch.allMonitorTimes referenceMoment in
      results <- mapM (fetchDataByTime h) allMonitorTimes ;;
      let (allData, successfulRequests) := Batch.aggregate h results in
      ret (res_json
             (JObj (defined
                [("status", Some (JStr "success"));
                 ("time_range_start", option_map JStr (nth_error allMonitorTimes 0));
                 ("time_range_end",
                   option_map JStr
                     (nth_error allMonitorTimes (length allMonitorTimes - 1)));
                 ("summary",
                   Some (JStr (Batch.summary successfulRequests (length allData))));
                 ("data", Some (records_json allData))])),
           app).

(** The handler the router finds for a request whose path is the very string
    a route was registered with: the first such route. *)
Fixpoint route (path : string) (app : App) : option Handler :=
  match app with
  | [] => None
  | (p, handler) :: rest => if String.eqb path p then Some handler else route path rest
  end.

(** A GET request for [path]: [None] when no route is registered for it and
    the framework answers by itself. *)
Definition serve (h : Host) (path : string) (app : App)
  : IO (option HttpResponse * App) :=
  match route path app with
  | Some TaitungAirData =>
      answer <- taitung_air_data h app ;;
      ret (Some (fst answer), snd answer)
  | Some TestSingleRecord =>
      response <- Batch.test_single_record_part_002 h ;;
      ret (Some response, app)
  | None => ret (None, app)
  end.

(** [n] requests for [/taitung-air-data], one after the other. *)
Fixpoint batch_requests (n : nat) (h : Host) (app : App) : IO App :=
  match n with
  | O => ret app
  | S k =>
      answer <- serve h "/taitung-air-data" app ;;
      batch_requests k h (snd answer)
  end.

End Part002.

(** ** Notions and data for the further properties *)

Module More.
Import Data Net.

(** The records are in ascending order of the field [name]: every record is
    dated and not later than its successor. *)
Fixpoint in_time_order (h : Host) (name : string) (l : list Record) : bool :=
  match l with
  | [] => true
  | a :: rest =>
      match rest with
      | [] => Js.dated h name a
      | b :: _ =>
          match Js.time_of h name a, Js.time_of h name b with
          | Some x, Some y => x <=? y
          | _, _ => false
          end
      end
      && in_time_order h name rest
  end.

(** No record of [l] is a PM2.5 reading. *)
Definition no_pm25 (l : list Record) : bool :=
  forallb (fun r => negb (field_is "itemengname" "PM2.5" r)) l.

(** Reading [data.records] does not throw: the body is not [null]. *)
Definition readable (d : ResponseData) : bool :=
  match d with
  | DataNull => false
  | _ => true
  end.

(** The status is one axios accepts. *)
Definition accepted (st : Z) : bool := (200 <=? st) && (st <? 300).

(** A host whose upstream answers every request with status [st] and body
    [d]. *)
Definition answering (st : Z) (d : ResponseData) : Host :=
  {| env_API_KEY := Some "sample-key";
     moment := Sample.read_moment;
     Date_parse := Stamp.instant_of;
     upstream := fun _ => Responded st d |}.

Definition hour_17 : list Record :=
  [Sample.reading "O3" "2025-11-26 17:00" "30";
   Sample.reading "PM2.5" "2025-11-26 17:00" "11";
   Sample.reading "PM10" "2025-11-26 17:00" "22"].

(** The sample service for the monitoring requests; any other request gets
    no answer. *)
Definition monitoring_only (request : Request) : Outcome :=
  match get "monitordate" (params request) with
  | Some monitorDate => Sample.answer monitorDate
  | None => NoResponse "connect ECONNREFUSED"
  end.

Definition monitoring_host : Host :=
  {| env_API_KEY := Some "sample-key";
     moment := Sample.read_moment;
     Date_parse := Stamp.instant_of;
     upstream := monitoring_only |}.

End More.

(* ===================================================================== *)
(** * Part II: properties                                                 *)
(* ===================================================================== *)

Import Calendar Moment Data Net.

(** ** The calendar and the stamp format *)

Lemma civil_from_days_fields z :
  let '(y, m, d) := civil_from_days z in
  1 <= m <= 12 /\ 1 <= d <= 31 /\ days_from_civil y m d = z.
Proof.
  unfold civil_from_days, days_from_civil.
  set (z' := z + 719468).
  set (era := z' / 146097). set (doe := z' mod 146097).
  assert (Hdoe : 0 <= doe < 146097) by (apply Z.mod_pos_bound; lia).
  assert (Hz : z' = 146097 * era + doe) by (apply Z.div_mod; lia).
  set (yoe := (doe - doe / 1460 + doe / 36524 - doe / 146096) / 365).
  assert (Hyoe : 0 <= yoe < 400) by (subst yoe; Z.div_mod_to_equations; lia).
  set (doy := doe - (365 * yoe + yoe / 4 - yoe / 100)).
  assert (Hdoy : 0 <= doy < 366) by (subst doy yoe; Z.div_mod_to_equations; lia).
  set (mp := (5 * doy + 2) / 153).
  assert (Hmp : 0 <= mp < 12) by (subst mp; Z.div_mod_to_equations; lia).
  set (d := doy - (153 * mp + 2) / 5 + 1).
  assert (Hd : 1 <= d <= 31) by (subst d mp; Z.div_mod_to_equations; lia).
  assert (Hdiv : (yoe + era * 400) / 400 = era)
    by (rewrite Z.div_add by lia; rewrite Z.div_small by lia; lia).
  assert (Hmod : (yoe + era * 400) mod 400 = yoe)
    by (rewrite Z.mod_add by lia; apply Z.mod_small; lia).
  destruct (Z.ltb_spec mp 10).
  - destruct (Z.leb_spec (mp + 3) 2); [lia|].
    destruct (Z.ltb_spec 2 (mp + 3)); [|lia].
    replace (mp + 3 - 3) with mp by lia.
    rewrite Hdiv, Hmod. subst d doy. lia.
  - destruct (Z.leb_spec (mp - 9) 2); [|lia].
    destruct (Z.ltb_spec 2 (mp - 9)); [lia|].
    replace (mp - 9 + 9) with mp by lia.
    replace (yoe + era * 400 + 1 - 1) with (yoe + era * 400) by lia.
    rewrite Hdiv, Hmod. subst d doy. lia.
Qed.

Lemma string_length_app (a b : string) :
  String.length (a ++ b)%string = (String.length a + String.length b)%nat.
Proof. induction a as [|c a IH]; simpl; [reflexivity | now rewrite IH]. Qed.

Lemma substring_all (b : string) : substring 0 (String.length b) b = b.
Proof. induction b as [|c b IH]; simpl; [reflexivity | now rewrite IH]. Qed.

Lemma substring_app_l (a b : string) : substring 0 (String.length a) (a ++ b) = a.
Proof.
  induction a as [|c a IH]; simpl.
  - destruct b; reflexivity.
  - now rewrite IH.
Qed.

Lemma substring_app_r (a b : string) :
  substring (String.length a) (String.length b) (a ++ b) = b.
Proof. induction a as [|c a IH]; simpl; [apply substring_all | exact IH]. Qed.

Lemma forall_below_spec n p :
  Stamp.forall_below n p = true -> forall v, 0 <= v < Z.of_nat n -> p v = true.
Proof.
  induction n as [|k IH]; intros H v Hv; [lia|].
  simpl in H. apply andb_prop in H as [Hk Hrest].
  destruct (Z.eq_dec v (Z.of_nat k)) as [->|Hne]; [exact Hk|].
  apply IH; [exact Hrest | lia].
Qed.

Lemma zeroFill_two v :
  0 <= v < 100 ->
  exists a b, Text.zeroFill v 2 = String a (String b EmptyString)
              /\ Stamp.two_digits a b = Some v.
Proof.
  intros Hv.
  assert (H : Stamp.two_digit_ok v = true).
  { apply (forall_below_spec 100); [vm_compute; reflexivity | simpl; lia]. }
  unfold Stamp.two_digit_ok in H.
  destruct (Text.zeroFill v 2) as [|a [|b [|c s]]]; try discriminate.
  exists a, b. split; [reflexivity|].
  destruct (Stamp.two_digits a b) as [w|]; [|discriminate].
  apply Z.eqb_eq in H. now subst.
Qed.

Lemma uint_of_string_zeros k s :
  NilEmpty.uint_of_string (Text.zeros k ++ s) =
  option_map (Nat.iter k Decimal.D0) (NilEmpty.uint_of_string s).
Proof.
  induction k as [|k IH]; simpl.
  - destruct (NilEmpty.uint_of_string s); reflexivity.
  - rewrite IH. destruct (NilEmpty.uint_of_string s); reflexivity.
Qed.

Lemma N_of_uint_zeros k u : N.of_uint (Nat.iter k Decimal.D0 u) = N.of_uint u.
Proof. induction k as [|k IH]; simpl; [reflexivity | exact IH]. Qed.

Lemma of_N_not_empty n : Text.of_N n <> EmptyString.
Proof.
  unfold Text.of_N. intros H.
  assert (E : NilEmpty.uint_of_string (NilEmpty.string_of_uint (N.to_uint n)) = Some Decimal.Nil)
    by (rewrite H; reflexivity).
  rewrite NilEmpty.usu in E. injection E as E.
  assert (E' : N.of_uint (N.to_uint n) = 0%N) by (rewrite E; reflexivity).
  rewrite DecimalN.Unsigned.of_to in E'. subst n. discriminate.
Qed.

Lemma unsigned_of_padded k n :
  Stamp.unsigned_of (Text.zeros k ++ Text.of_N n) = Some (Z.of_N n).
Proof.
  assert (E : NilEmpty.uint_of_string (Text.zeros k ++ Text.of_N n)
              = Some (Nat.iter k Decimal.D0 (N.to_uint n))).
  { rewrite uint_of_string_zeros. unfold Text.of_N. now rewrite NilEmpty.usu. }
  unfold Stamp.unsigned_of.
  destruct (Text.zeros k ++ Text.of_N n)%string eqn:Es.
  - destruct k; simpl in Es; [|discriminate]. now apply of_N_not_empty in Es.
  - rewrite E. simpl. now rewrite N_of_uint_zeros, DecimalN.Unsigned.of_to.
Qed.

Lemma padded_not_minus k n r : (Text.zeros k ++ Text.of_N n)%string <> String "-" r.
Proof.
  intros H.
  assert (E : NilEmpty.uint_of_string (Text.zeros k ++ Text.of_N n)
              = Some (Nat.iter k Decimal.D0 (N.to_uint n))).
  { rewrite uint_of_string_zeros. unfold Text.of_N. now rewrite NilEmpty.usu. }
  rewrite H in E. simpl in E.
  destruct (NilEmpty.uint_of_string r); discriminate.
Qed.

Lemma year_of_zeroFill y n : Stamp.year_of (Text.zeroFill y n) = Some y.
Proof.
  unfold Text.zeroFill.
  set (k := (n - String.length (Text.of_N (Z.abs_N y)))%nat).
  destruct (Z.leb_spec 0 y) as [Hy|Hy]; simpl.
  - unfold Stamp.year_of.
    destruct (Text.zeros k ++ Text.of_N (Z.abs_N y))%string as [|c r] eqn:Es.
    + rewrite <- Es, unsigned_of_padded. f_equal. lia.
    + destruct (Ascii.eqb_spec c "-") as [->|Hc].
      * now apply padded_not_minus in Es.
      * assert (E : Stamp.unsigned_of (String c r) = Some y)
          by (rewrite <- Es, unsigned_of_padded; f_equal; lia).
        destruct c as [[] [] [] [] [] [] [] []]; try exact E. now elim Hc.
  - rewrite unsigned_of_padded. simpl. f_equal. lia.
Qed.

Lemma civil_of_ms_fields t :
  let c := civil_of_ms t in
  1 <= month c <= 12 /\ 1 <= date c <= 31 /\ 0 <= hour c < 24 /\
  0 <= minute c < 60 /\
  days_from_civil (year c) (month c) (date c) = t / msPerDay.
Proof.
  unfold civil_of_ms.
  pose proof (civil_from_days_fields (t / msPerDay)) as H.
  destruct (civil_from_days (t / msPerDay)) as [[y m] d]. simpl.
  destruct H as (Hm & Hd & Hr).
  repeat split; try lia; unfold msPerDay, msPerHour, msPerMinute in *;
    Z.div_mod_to_equations; lia.
Qed.

Lemma startOfHour_civil t :
  ms_of_civil {| year := year (civil_of_ms t); month := month (civil_of_ms t);
                 date := date (civil_of_ms t); hour := hour (civil_of_ms t);
                 minute := 0 |} = startOfHour t.
Proof.
  destruct (civil_of_ms_fields t) as (_ & _ & _ & _ & Hr).
  unfold ms_of_civil, startOfHour. cbn [year month date hour minute]. rewrite Hr.
  unfold civil_of_ms. destruct (civil_from_days (t / msPerDay)) as [[y m] d].
  cbn [hour]. unfold msPerDay, msPerHour, msPerMinute. Z.div_mod_to_equations. lia.
Qed.

Lemma fields_of_format t :
  Stamp.fields_of (format_YYYY_MM_DD_HH_00 (ValidMoment t)) =
  Some {| year := year (civil_of_ms t); month := month (civil_of_ms t);
          date := date (civil_of_ms t); hour := hour (civil_of_ms t);
          minute := 0 |}.
Proof.
  destruct (civil_of_ms_fields t) as (Hm & Hd & Hh & _ & _).
  unfold format_YYYY_MM_DD_HH_00.
  set (c := civil_of_ms t) in *. cbv zeta.
  destruct (zeroFill_two (month c)) as (m1 & m2 & Em & Pm); [lia|].
  destruct (zeroFill_two (date c)) as (d1 & d2 & Ed & Pd); [lia|].
  destruct (zeroFill_two (hour c)) as (h1 & h2 & Eh & Ph); [lia|].
  rewrite Em, Ed, Eh.
  set (ys := Text.zeroFill (year c) 4).
  set (tail := String "-" (String m1 (String m2 (String "-" (String d1 (String d2
                 (String " " (String h1 (String h2 ":00"))))))))).
  replace (ys ++ "-" ++ String m1 (String m2 "") ++ "-" ++ String d1 (String d2 "")
            ++ " " ++ String h1 (String h2 "") ++ ":00")%string
    with (ys ++ tail)%string by reflexivity.
  unfold Stamp.fields_of.
  rewrite string_length_app.
  replace (String.length ys + String.length tail - 12)%nat with (String.length ys)
    by (simpl; lia).
  rewrite substring_app_l.
  change 12%nat with (String.length tail).
  rewrite substring_app_r.
  unfold ys. rewrite year_of_zeroFill.
  unfold tail. simpl. rewrite Pm, Pd, Ph. reflexivity.
Qed.

Lemma instant_of_format t :
  Stamp.instant_of (format_YYYY_MM_DD_HH_00 (ValidMoment t)) = Some (startOfHour t).
Proof.
  unfold Stamp.instant_of. rewrite fields_of_format.
  cbn [option_map]. now rewrite startOfHour_civil.
Qed.

Lemma startOfHour_add t k : startOfHour (t + k * msPerHour) = startOfHour t + k * msPerHour.
Proof.
  unfold startOfHour. rewrite Z.mod_add by (unfold msPerHour; lia). lia.
Qed.

Lemma startOfHour_on_the_hour t : startOfHour t mod msPerHour = 0.
Proof.
  unfold startOfHour, msPerHour. Z.div_mod_to_equations. lia.
Qed.

(** ** The time window *)

Lemma for_range_length lo hi : length (Batch.for_range lo hi) = Z.to_nat (hi - lo + 1).
Proof. unfold Batch.for_range. now rewrite length_map, length_seq. Qed.

Lemma for_range_nth lo hi i d :
  (i < Z.to_nat (hi - lo + 1))%nat -> nth i (Batch.for_range lo hi) d = lo + Z.of_nat i.
Proof.
  intros Hi. unfold Batch.for_range.
  rewrite (nth_indep _ d (lo + Z.of_nat 0)) by now rewrite length_map, length_seq.
  rewrite (map_nth (fun k => lo + Z.of_nat k)), seq_nth by exact Hi. reflexivity.
Qed.

Lemma allMonitorTimes_length m : length (Batch.allMonitorTimes m) = 73%nat.
Proof. unfold Batch.allMonitorTimes. now rewrite length_map, for_range_length. Qed.

Lemma allMonitorTimes_nth R i :
  (i < 73)%nat ->
  nth i (Batch.allMonitorTimes (ValidMoment R)) "" =
  format_YYYY_MM_DD_HH_00 (ValidMoment (R + (Z.of_nat i - 36) * msPerHour)).
Proof.
  intros Hi. unfold Batch.allMonitorTimes.
  set (f := fun i0 => format_YYYY_MM_DD_HH_00 (add_hours i0 (clone (ValidMoment R)))).
  rewrite (nth_indep _ "" (f 0)) by now rewrite length_map, for_range_length.
  rewrite (map_nth f), for_range_nth by exact Hi.
  unfold f, clone, add_hours. do 2 f_equal. lia.
Qed.

Lemma allMonitorTimes_instant R i :
  (i < 73)%nat ->
  Stamp.instant_of (nth i (Batch.allMonitorTimes (ValidMoment R)) "") =
  Some (startOfHour R + (Z.of_nat i - 36) * msPerHour).
Proof.
  intros Hi. now rewrite allMonitorTimes_nth, instant_of_format, startOfHour_add.
Qed.

(** C1.  For every reference instant [R] the window has exactly 73 stamps;
    the stamp at index [i] is the format of [R + (i - 36)] hours; read back,
    it denotes the start of the hour of [R] shifted by [i - 36] hours, a whole
    hour whose minute field is zero; consecutive stamps are exactly one hour
    apart; and the stamp at index 36 is [R] cut to the hour. *)
Theorem allMonitorTimes_window (R : Z) :
  let window := Batch.allMonitorTimes (ValidMoment R) in
  length window = 73%nat /\
  (forall i, (i < 73)%nat ->
     nth i window "" =
       format_YYYY_MM_DD_HH_00 (ValidMoment (R + (Z.of_nat i - 36) * msPerHour)) /\
     Stamp.instant_of (nth i window "") =
       Some (startOfHour R + (Z.of_nat i - 36) * msPerHour) /\
     (startOfHour R + (Z.of_nat i - 36) * msPerHour) mod msPerHour = 0 /\
     option_map minute (Stamp.fields_of (nth i window "")) = Some 0) /\
  (forall i, (S i < 73)%nat ->
     exists t, Stamp.instant_of (nth i window "") = Some t /\
               Stamp.instant_of (nth (S i) window "") = Some (t + msPerHour)) /\
  Stamp.instant_of (nth 36 window "") = Some (startOfHour R).
Proof.
  cbv zeta. split; [apply allMonitorTimes_length|]. split; [|split].
  - intros i Hi. repeat split.
    + now apply allMonitorTimes_nth.
    + now apply allMonitorTimes_instant.
    + rewrite <- startOfHour_add. apply startOfHour_on_the_hour.
    + rewrite allMonitorTimes_nth, fields_of_format by exact Hi. reflexivity.
  - intros i Hi. eexists. split.
    + apply allMonitorTimes_instant. lia.
    + rewrite allMonitorTimes_instant by exact Hi. f_equal. lia.
  - rewrite allMonitorTimes_instant by lia. f_equal. simpl. lia.
Qed.

(** C9.  For the reference instant 2025-11-26 00:00 (the reference string of
    part_004, read as a stamp) the first stamp of the window is
    2025-11-24 12:00 and the last is 2025-11-27 12:00. *)
Theorem window_of_midnight_reference :
  Stamp.instant_of (Batch.REFERENCE_TIME_STR Batch.part_004) = Some midnight_2025_11_26 /\
  let window := Batch.allMonitorTimes (ValidMoment midnight_2025_11_26) in
  nth_error window 0 = Some "2025-11-24 12:00" /\
  nth_error window (length window - 1) = Some "2025-11-27 12:00".
Proof. vm_compute. repeat split; reflexivity. Qed.

(** ** [Array.prototype.sort] with a comparator that orders by a key *)

Section SortFacts.
Context {A : Type}.
Variable comparefn : A -> A -> option Z.
Variable key : A -> Z.

Local Abbreviation keyed := (Js.keyed comparefn key).
Local Abbreviation key_le := (Js.key_le key).
Local Abbreviation with_key := (Js.with_key key).

Lemma keyed_tail x l : keyed (x :: l) -> keyed l.
Proof. intros H a b Ha Hb. apply H; now right. Qed.

Lemma keyed_perm l l' : Permutation l l' -> keyed l -> keyed l'.
Proof.
  intros P H a b Ha Hb.
  apply H; eapply Permutation_in; try eassumption; now apply Permutation_sym.
Qed.

Lemma insert_perm x l : Permutation (Js.insert comparefn x l) (x :: l).
Proof.
  induction l as [|y l IH]; simpl; [reflexivity|].
  destruct (Js.goes_after comparefn x y); [|reflexivity].
  rewrite IH. apply perm_swap.
Qed.

Lemma sort_perm l : Permutation (Js.sort comparefn l) l.
Proof.
  induction l as [|x l IH]; simpl; [reflexivity|].
  rewrite insert_perm. now constructor.
Qed.

Lemma goes_after_keyed x y l :
  keyed l -> In x l -> In y l -> Js.goes_after comparefn x y = (key y <? key x).
Proof.
  intros H Hx Hy. unfold Js.goes_after. rewrite (H x y Hx Hy).
  destruct (Z.ltb_spec 0 (key x - key y)), (Z.ltb_spec (key y) (key x)); lia || reflexivity.
Qed.

Lemma insert_sorted x l :
  keyed (x :: l) -> StronglySorted key_le l ->
  StronglySorted key_le (Js.insert comparefn x l).
Proof.
  intros K S. induction S as [|y l S IH F]; simpl.
  - repeat constructor.
  - rewrite (goes_after_keyed x y (x :: y :: l) K) by (simpl; auto).
    destruct (Z.ltb_spec (key y) (key x)) as [Hlt|Hge].
    + constructor.
      * apply IH. intros a b Ha Hb. apply K; simpl in *; tauto.
      * apply (Permutation_Forall (Permutation_sym (insert_perm x l))).
        constructor; [unfold Js.key_le; lia | exact F].
    + constructor; [now constructor|].
      constructor; [exact Hge|].
      eapply Forall_impl; [|exact F]. unfold Js.key_le. intros a Ha. lia.
Qed.

Lemma sort_sorted l : keyed l -> StronglySorted key_le (Js.sort comparefn l).
Proof.
  induction l as [|x l IH]; intros K; simpl; [constructor|].
  apply insert_sorted.
  - eapply keyed_perm; [|exact K]. constructor. apply Permutation_sym, sort_perm.
  - apply IH. now apply keyed_tail in K.
Qed.

(** Stability: the records of one key keep their order. *)
Lemma insert_stable k x l :
  keyed (x :: l) ->
  filter (with_key k) (Js.insert comparefn x l) = filter (with_key k) (x :: l).
Proof.
  intros K. induction l as [|y l IH]; [reflexivity|].
  cbn [Js.insert].
  rewrite (goes_after_keyed x y (x :: y :: l) K) by (simpl; auto).
  destruct (Z.ltb_spec (key y) (key x)) as [Hlt|Hge]; [|reflexivity].
  assert (K' : keyed (x :: l)) by (intros a b Ha Hb; apply K; simpl in *; tauto).
  cbn [filter]. rewrite (IH K'). cbn [filter]. unfold Js.with_key.
  destruct (Z.eqb_spec (key y) k), (Z.eqb_spec (key x) k); try reflexivity. lia.
Qed.

Lemma sort_stable k l :
  keyed l -> filter (with_key k) (Js.sort comparefn l) = filter (with_key k) l.
Proof.
  induction l as [|x l IH]; intros K; [reflexivity|].
  cbn [Js.sort]. rewrite insert_stable.
  - cbn [filter]. rewrite IH by now apply keyed_tail in K. reflexivity.
  - eapply keyed_perm; [|exact K]. constructor. apply Permutation_sym, sort_perm.
Qed.

(** Two sorted lists with the same records under every key are equal. *)
Lemma sorted_stable_unique l1 :
  forall l2,
    StronglySorted key_le l1 -> StronglySorted key_le l2 ->
    (forall k, filter (with_key k) l1 = filter (with_key k) l2) ->
    l1 = l2.
Proof.
  induction l1 as [|a l1 IH]; intros l2 S1 S2 E.
  - destruct l2 as [|b l2]; [reflexivity|].
    specialize (E (key b)). cbn [filter] in E. unfold Js.with_key in E.
    rewrite Z.eqb_refl in E. discriminate.
  - destruct l2 as [|b l2].
    + specialize (E (key a)). cbn [filter] in E. unfold Js.with_key in E.
      rewrite Z.eqb_refl in E. discriminate.
    + inversion S1 as [|? ? S1' F1]; subst. inversion S2 as [|? ? S2' F2]; subst.
      assert (Hab : key a = key b).
      { assert (Ha : In a (b :: l2)).
        { pose proof (E (key a)) as Ea.
          assert (I : In a (filter (with_key (key a)) (b :: l2))).
          { rewrite <- Ea. cbn [filter]. unfold Js.with_key at 1.
            rewrite Z.eqb_refl. now left. }
          now apply filter_In in I. }
        assert (Hb : In b (a :: l1)).
        { pose proof (E (key b)) as Eb.
          assert (I : In b (filter (with_key (key b)) (a :: l1))).
          { rewrite Eb. cbn [filter]. unfold Js.with_key at 1.
            rewrite Z.eqb_refl. now left. }
          now apply filter_In in I. }
        rewrite Forall_forall in F1, F2. unfold Js.key_le in *.
        destruct Ha as [->|Ha]; [reflexivity|].
        destruct Hb as [->|Hb]; [reflexivity|].
        specialize (F1 _ Hb). specialize (F2 _ Ha). lia. }
      assert (a = b).
      { specialize (E (key a)). cbn [filter] in E. unfold Js.with_key in E.
        rewrite <- Hab, Z.eqb_refl in E. now injection E. }
      subst b. f_equal. apply IH; try assumption.
      intros k. specialize (E k). cbn [filter] in E.
      destruct (with_key k a); [now injection E | exact E].
Qed.

Lemma sort_decided_by_keys l l' :
  keyed l -> keyed l' ->
  (forall k, filter (with_key k) l = filter (with_key k) l') ->
  Js.sort comparefn l = Js.sort comparefn l'.
Proof.
  intros K K' E. apply sorted_stable_unique; try now apply sort_sorted.
  intros k. now rewrite !sort_stable.
Qed.

End SortFacts.

(** ** The fetch of one instant *)

Section FetchFacts.
Variable v : Batch.Version.
Variable h : Host.

Lemma fetchDataByTime_run monitorDate issued :
  Batch.may_fetch v h ->
  Batch.fetchDataByTime v h monitorDate issued
  = (Fulfilled (Batch.fetched h monitorDate), issued ++ [Batch.request_for h monitorDate]).
Proof.
  intros M. unfold Batch.fetchDataByTime.
  assert (G : match v with
              | Batch.part_003 => false
              | Batch.part_004 => not_str (Batch.API_KEY h)
              end = false)
    by (destruct M as [E | E]; [now rewrite E | rewrite E; now destruct v]).
  rewrite G. unfold bind, axios_get, Batch.fetched, Batch.yield, Batch.request_for, ret.
  destruct (upstream h _) as [msg | st d]; [reflexivity|].
  destruct ((200 <=? st) && (st <? 300)); [|reflexivity].
  destruct d; reflexivity.
Qed.

Lemma fetched_of_failure monitorDate :
  Batch.fetch_fails (upstream h (Batch.request_for h monitorDate)) = true ->
  Batch.fetched h monitorDate = [].
Proof.
  unfold Batch.fetched, Batch.yield, Batch.fetch_fails.
  destruct (upstream h _) as [msg | st d]; [reflexivity|].
  destruct ((200 <=? st) && (st <? 300)); [|reflexivity].
  destruct d; simpl; intros H; try reflexivity. discriminate.
Qed.

Lemma mapM_fetch times issued :
  Batch.may_fetch v h ->
  mapM (Batch.fetchDataByTime v h) times issued
  = (map (fun t => Fulfilled (Batch.fetched h t)) times,
     issued ++ map (Batch.request_for h) times).
Proof.
  intros M. revert issued.
  induction times as [|t times IH]; intros issued; simpl.
  - unfold ret. now rewrite app_nil_r.
  - unfold bind at 1. rewrite fetchDataByTime_run by exact M.
    unfold bind at 1. rewrite IH. unfold ret.
    now rewrite <- app_assoc.
Qed.

End FetchFacts.

(** ** The merge of the settled results *)

Lemma collect_from results :
  forall allData n,
    fold_left Batch.collect_step results (allData, n)
    = (allData ++ concat (map Batch.records_of (filter Batch.productive results)),
       (n + length (filter Batch.productive results))%nat).
Proof.
  induction results as [|r results IH]; intros allData n; simpl.
  - now rewrite app_nil_r, Nat.add_0_r.
  - destruct r as [[|x value] | e]; simpl; rewrite IH.
    + reflexivity.
    + rewrite <- app_assoc. f_equal. lia.
    + reflexivity.
Qed.

Lemma collect_spec results :
  Batch.collect results
  = (concat (map Batch.records_of (filter Batch.productive results)),
     length (filter Batch.productive results)).
Proof. unfold Batch.collect. now rewrite collect_from. Qed.

(** Leaving out the results without records does not change the
    concatenation. *)
Lemma concat_productive results :
  concat (map Batch.records_of (filter Batch.productive results))
  = concat (map Batch.records_of results).
Proof.
  induction results as [|r results IH]; [reflexivity|].
  destruct r as [[|x value] | e]; simpl; now rewrite IH.
Qed.

Lemma aggregate_spec h results :
  Batch.aggregate h results
  = (Js.sort (Batch.by_monitordate h)
       (concat (map Batch.records_of (filter Batch.productive results))),
     length (filter Batch.productive results)).
Proof. unfold Batch.aggregate. now rewrite collect_spec. Qed.

(** ** A run of the batch handler *)

Section BatchRun.
Variable v : Batch.Version.
Variable h : Host.
Hypothesis key_set : not_str (Batch.API_KEY h) = false.
Hypothesis reference_valid : isValid (Batch.referenceMoment v h) = true.

Lemma results_of_run issued :
  Batch.results_of v h issued = map (fun t => Fulfilled (Batch.fetched h t)) (Batch.window v h).
Proof.
  unfold Batch.results_of. rewrite mapM_fetch by (now right). reflexivity.
Qed.

Lemma taitung_air_data_run issued :
  Batch.taitung_air_data v h issued
  = (let (allData, successfulRequests) :=
       Batch.aggregate h (Batch.results_of v h issued) in
     res_json
       (JObj [("status", JStr "success");
              ("time_range_start", JStr (nth 0 (Batch.window v h) ""));
              ("time_range_end", JStr (nth 72 (Batch.window v h) ""));
              ("summary",
                JStr (Batch.summary successfulRequests (length allData)));
              ("data", records_json allData)]),
     issued ++ map (Batch.request_for h) (Batch.window v h)).
Proof.
  unfold Batch.taitung_air_data. rewrite key_set.
  fold (Batch.referenceMoment v h). rewrite reference_valid. cbn [negb].
  fold (Batch.window v h).
  rewrite results_of_run.
  unfold bind. rewrite mapM_fetch by (now right).
  destruct (Batch.aggregate h _) as [allData successfulRequests].
  unfold ret, Batch.window. rewrite allMonitorTimes_length.
  rewrite !(nth_error_nth' _ "") by (rewrite allMonitorTimes_length; lia).
  reflexivity.
Qed.

End BatchRun.

(** ** Sorting records by a date field *)

Section DateOrder.
Variable h : Host.
Variable name : string.

Local Abbreviation stamp_key := (Js.stamp_key h name).
Local Abbreviation ascending := (Js.ascending h name).
Local Abbreviation descending := (Js.descending h name).

Lemma dated_time r : Js.dated h name r = true -> Js.time_of h name r = Some (stamp_key r).
Proof.
  unfold Js.dated, Js.stamp_key. destruct (Js.time_of h name r); [reflexivity | discriminate].
Qed.

Lemma ascending_keyed l :
  forallb (Js.dated h name) l = true -> Js.keyed ascending stamp_key l.
Proof.
  intros D a b Ha Hb. rewrite forallb_forall in D.
  unfold Js.ascending. fold (Js.time_of h name a). fold (Js.time_of h name b).
  now rewrite !dated_time by auto.
Qed.

Lemma descending_keyed l :
  forallb (Js.dated h name) l = true -> Js.keyed descending (fun r => - stamp_key r) l.
Proof.
  intros D a b Ha Hb. rewrite forallb_forall in D.
  unfold Js.descending. fold (Js.time_of h name a). fold (Js.time_of h name b).
  rewrite !dated_time by auto. simpl. f_equal. lia.
Qed.

Lemma forallb_perm (p : Data.Record -> bool) l l' :
  Permutation l l' -> forallb p l = true -> forallb p l' = true.
Proof.
  intros P D. rewrite forallb_forall in *. intros x Hx.
  apply D. eapply Permutation_in; [apply Permutation_sym|]; eassumption.
Qed.

Lemma sorted_not_later l :
  forallb (Js.dated h name) l = true ->
  StronglySorted (Js.key_le stamp_key) l ->
  StronglySorted (Js.not_later h name) l.
Proof.
  intros D S. induction S as [|a l S IH F]; [constructor|].
  simpl in D. apply andb_prop in D as [Da Dl].
  constructor; [now apply IH|].
  rewrite forallb_forall in Dl. rewrite Forall_forall in *.
  intros b Hb. unfold Js.not_later.
  rewrite (dated_time a Da), (dated_time b (Dl b Hb)). now apply F.
Qed.

Lemma sorted_not_earlier l :
  forallb (Js.dated h name) l = true ->
  StronglySorted (Js.key_le (fun r => - stamp_key r)) l ->
  StronglySorted (fun a b => Js.not_later h name b a) l.
Proof.
  intros D S. induction S as [|a l S IH F]; [constructor|].
  simpl in D. apply andb_prop in D as [Da Dl].
  constructor; [now apply IH|].
  rewrite forallb_forall in Dl. rewrite Forall_forall in *.
  intros b Hb. unfold Js.not_later.
  rewrite (dated_time a Da), (dated_time b (Dl b Hb)).
  specialize (F b Hb). unfold Js.key_le in F. lia.
Qed.

Lemma sort_ascending l :
  forallb (Js.dated h name) l = true ->
  StronglySorted (Js.not_later h name) (Js.sort ascending l).
Proof.
  intros D. apply sorted_not_later.
  - eapply forallb_perm; [apply Permutation_sym, sort_perm | exact D].
  - apply sort_sorted. now apply ascending_keyed.
Qed.

Lemma sort_descending l :
  forallb (Js.dated h name) l = true ->
  StronglySorted (fun a b => Js.not_later h name b a) (Js.sort descending l).
Proof.
  intros D. apply sorted_not_earlier.
  - eapply forallb_perm; [apply Permutation_sym, sort_perm | exact D].
  - apply sort_sorted. now apply descending_keyed.
Qed.

End DateOrder.

(** ** Supplying the fetch results in another order *)

Section SupplyOrder.
Variable h : Host.

Local Abbreviation key := (Js.stamp_key h "monitordate").
Local Abbreviation dated := (Js.dated h "monitordate").

Lemma by_monitordate_ascending :
  Batch.by_monitordate h = Js.ascending h "monitordate".
Proof. reflexivity. Qed.

Lemma same_time_sym a b : Batch.same_time h a b = Batch.same_time h b a.
Proof.
  unfold Batch.same_time.
  destruct (Js.time_of h "monitordate" a), (Js.time_of h "monitordate" b);
    try reflexivity. apply Z.eqb_sym.
Qed.

Lemma share_timestamp_true r1 r2 :
  Batch.share_timestamp h r1 r2 = true <->
  exists a b, In a (Batch.records_of r1) /\ In b (Batch.records_of r2)
              /\ Batch.same_time h a b = true.
Proof.
  unfold Batch.share_timestamp. rewrite existsb_exists. split.
  - intros (a & Ha & E). apply existsb_exists in E as (b & Hb & E). now exists a, b.
  - intros (a & b & Ha & Hb & E). exists a. split; [exact Ha|].
    apply existsb_exists. now exists b.
Qed.

Lemma share_timestamp_sym r1 r2 :
  Batch.share_timestamp h r1 r2 = Batch.share_timestamp h r2 r1.
Proof.
  apply Bool.eq_iff_eq_true. rewrite !share_timestamp_true.
  split; intros (a & b & Ha & Hb & E); exists b, a; now rewrite same_time_sym.
Qed.

Lemma separate_perm rs rs' :
  Permutation rs rs' ->
  Batch.separate_timestamps h rs = true -> Batch.separate_timestamps h rs' = true.
Proof.
  induction 1 as [| x l l' P IH | x y l | l l' l'' P1 IH1 P2 IH2]; simpl; auto.
  - rewrite !andb_true_iff. intros [F S]. split; [|now apply IH].
    rewrite forallb_forall in *. intros r Hr. apply F.
    eapply Permutation_in; [apply Permutation_sym|]; eassumption.
  - rewrite !andb_true_iff. intros [[Hyx Fy] [Fx S]].
    rewrite share_timestamp_sym. tauto.
Qed.

(** When two results share no timestamp, the records of one key lie in at
    most one of them. *)
Lemma one_side_empty k r1 r2 :
  forallb dated (Batch.records_of r1) = true ->
  forallb dated (Batch.records_of r2) = true ->
  Batch.share_timestamp h r1 r2 = false ->
  filter (Js.with_key key k) (Batch.records_of r1) = [] \/
  filter (Js.with_key key k) (Batch.records_of r2) = [].
Proof.
  intros D1 D2 N.
  destruct (filter (Js.with_key key k) (Batch.records_of r1)) as [|a l1] eqn:E1; [now left|].
  destruct (filter (Js.with_key key k) (Batch.records_of r2)) as [|b l2] eqn:E2; [now right|].
  exfalso.
  assert (Ia : In a (filter (Js.with_key key k) (Batch.records_of r1)))
    by (rewrite E1; now left).
  assert (Ib : In b (filter (Js.with_key key k) (Batch.records_of r2)))
    by (rewrite E2; now left).
  apply filter_In in Ia as [Ia Ka]. apply filter_In in Ib as [Ib Kb].
  rewrite forallb_forall in D1, D2.
  assert (S : Batch.share_timestamp h r1 r2 = true).
  { apply share_timestamp_true. exists a, b. repeat split; try assumption.
    unfold Batch.same_time.
    rewrite (dated_time h "monitordate" a (D1 a Ia)),
            (dated_time h "monitordate" b (D2 b Ib)).
    unfold Js.with_key in Ka, Kb. apply Z.eqb_eq in Ka, Kb. apply Z.eqb_eq. lia. }
  rewrite S in N. discriminate.
Qed.

Lemma all_records_cons r rs :
  Batch.all_records (r :: rs) = Batch.records_of r ++ Batch.all_records rs.
Proof. reflexivity. Qed.

Lemma all_records_perm rs rs' :
  Permutation rs rs' -> Permutation (Batch.all_records rs) (Batch.all_records rs').
Proof.
  induction 1 as [| x l l' P IH | x y l | l l' l'' P1 IH1 P2 IH2].
  - reflexivity.
  - rewrite !all_records_cons. now apply Permutation_app_head.
  - rewrite !all_records_cons, !app_assoc.
    apply Permutation_app_tail, Permutation_app_comm.
  - now transitivity (Batch.all_records l').
Qed.

Lemma records_under_key_perm k rs rs' :
  Permutation rs rs' ->
  forallb dated (Batch.all_records rs) = true ->
  Batch.separate_timestamps h rs = true ->
  filter (Js.with_key key k) (Batch.all_records rs)
  = filter (Js.with_key key k) (Batch.all_records rs').
Proof.
  induction 1 as [| x l l' P IH | x y l | l l' l'' P1 IH1 P2 IH2]; intros D S.
  - reflexivity.
  - rewrite !all_records_cons, !filter_app in *.
    rewrite forallb_app in D. apply andb_prop in D as [_ D].
    simpl in S. apply andb_prop in S as [_ S]. now rewrite IH.
  - rewrite !all_records_cons, !filter_app in *.
    rewrite !forallb_app in D.
    apply andb_prop in D as [Dy D]. apply andb_prop in D as [Dx _].
    simpl in S. apply andb_prop in S as [S _]. apply andb_prop in S as [S _].
    apply negb_true_iff in S.
    destruct (one_side_empty k y x Dy Dx S) as [E | E]; rewrite E; simpl;
      now rewrite ?app_nil_r.
  - rewrite IH1 by assumption. apply IH2.
    + eapply forallb_perm; [|exact D]. now apply all_records_perm.
    + eapply separate_perm; eassumption.
Qed.

End SupplyOrder.

(** ** The batch endpoint *)

Lemma filter_none {A : Type} (p : A -> bool) (l : list A) :
  forallb (fun x => negb (p x)) l = true -> filter p l = [].
Proof.
  induction l as [|x l IH]; simpl; [reflexivity|].
  intros H. apply andb_prop in H as [Hx Hl].
  apply negb_true_iff in Hx. rewrite Hx. now apply IH.
Qed.

Lemma results_of_length v h issued : length (Batch.results_of v h issued) = 73%nat.
Proof.
  unfold Batch.results_of.
  assert (G : forall times issued0,
             length (fst (mapM (Batch.fetchDataByTime v h) times issued0)) = length times).
  { induction times as [|t times IH]; intros issued0; [reflexivity|].
    simpl. unfold bind at 1.
    destruct (Batch.fetchDataByTime v h t issued0) as [y issued1].
    unfold bind at 1. specialize (IH issued1).
    destruct (mapM (Batch.fetchDataByTime v h) times issued1) as [ys issued2].
    simpl in *. now rewrite IH. }
  rewrite G. apply allMonitorTimes_length.
Qed.

(** The stamps of a window are pairwise different, so a mock transport can
    give every instant an outcome of its own. *)
Lemma window_NoDup R : NoDup (Batch.allMonitorTimes (ValidMoment R)).
Proof.
  apply (NoDup_nth _ ""). rewrite allMonitorTimes_length. intros i j Hi Hj E.
  assert (E' : Stamp.instant_of (nth i (Batch.allMonitorTimes (ValidMoment R)) "")
               = Stamp.instant_of (nth j (Batch.allMonitorTimes (ValidMoment R)) ""))
    by now rewrite E.
  rewrite !allMonitorTimes_instant in E' by assumption.
  injection E' as E'. unfold msPerHour in E'. lia.
Qed.

Lemma scripted_answer_nth times :
  forall outcomes i,
    NoDup times -> length outcomes = length times -> (i < length times)%nat ->
    Batch.scripted_answer times outcomes (nth i times "")
    = nth i outcomes (NoResponse "").
Proof.
  induction times as [|time times IH]; intros outcomes i N L Hi; [simpl in Hi; lia|].
  destruct outcomes as [|outcome outcomes]; [discriminate|].
  inversion N as [|? ? Hnot N']; subst.
  destruct i as [|i]; simpl.
  - now rewrite String.eqb_refl.
  - assert (Hin : In (nth i times "") times) by (apply nth_In; simpl in Hi; lia).
    destruct (String.eqb_spec (nth i times "") time) as [E | _].
    + rewrite E in Hin. contradiction.
    + apply IH; simpl in *; try assumption; lia.
Qed.

Lemma results_of_scripted v h issued outcomes :
  not_str (Batch.API_KEY h) = false ->
  isValid (Batch.referenceMoment v h) = true ->
  length outcomes = 73%nat ->
  Batch.results_of v (Batch.with_upstream h (Batch.scripted (Batch.window v h) outcomes)) issued
  = map (fun o => Fulfilled (Batch.yield o)) outcomes.
Proof.
  intros K V L.
  set (h' := Batch.with_upstream h (Batch.scripted (Batch.window v h) outcomes)).
  rewrite (results_of_run v h' K).
  change (Batch.window v h') with (Batch.window v h).
  assert (N : NoDup (Batch.window v h)).
  { unfold Batch.window. destruct (Batch.referenceMoment v h) as [R|]; [|discriminate].
    apply window_NoDup. }
  assert (W : length (Batch.window v h) = 73%nat) by apply allMonitorTimes_length.
  apply (nth_ext _ _ (Fulfilled []) (Fulfilled [])).
  - now rewrite !length_map, W, L.
  - intros i Hi. rewrite length_map, W in Hi.
    rewrite (nth_indep _ _ (Fulfilled (Batch.fetched h' ""))) by (rewrite length_map; lia).
    rewrite (map_nth (fun t => Fulfilled (Batch.fetched h' t))).
    rewrite (nth_indep _ _ (Fulfilled (Batch.yield (NoResponse ""))))
      by (rewrite length_map; lia).
    rewrite (map_nth (fun o => Fulfilled (Batch.yield o))).
    f_equal. unfold Batch.fetched.
    change (upstream h' (Batch.request_for h' (nth i (Batch.window v h) "")))
      with (Batch.scripted_answer (Batch.window v h) outcomes (nth i (Batch.window v h) "")).
    rewrite scripted_answer_nth by (try assumption; lia). reflexivity.
Qed.

(** C2.  For every vector of settled results the count the aggregator reports
    is the number K of results that are fulfilled with at least one record,
    and the merged data holds exactly the records of those K results, as a
    multiset.  In a run of the endpoint there are 73 results, one per instant
    of the window, each the fulfilled fetch of its instant; the response is a
    success whatever the individual outcomes, its summary states K and the
    number of merged records, and its data is the merged sequence.  Every
    vector of 73 outcomes occurs: a transport scripted with it makes the i-th
    fetch settle with what the i-th outcome yields. *)
Theorem batch_merges_productive_fetches :
  (forall h results,
     let productive := filter Batch.productive results in
     snd (Batch.aggregate h results) = length productive /\
     Permutation (fst (Batch.aggregate h results))
                 (concat (map Batch.records_of productive))) /\
  (forall v h issued,
     not_str (Batch.API_KEY h) = false ->
     isValid (Batch.referenceMoment v h) = true ->
     let results := Batch.results_of v h issued in
     let merged := Batch.aggregate h results in
     let response := fst (Batch.taitung_air_data v h issued) in
     length results = 73%nat /\
     results = map (fun t => Fulfilled (Batch.fetched h t)) (Batch.window v h) /\
     statusCode response = 200 /\
     field "status" (body response) = Some (JStr "success") /\
     field "error" (body response) = None /\
     field "summary" (body response)
       = Some (JStr (Batch.summary (snd merged) (length (fst merged)))) /\
     field "data" (body response) = Some (records_json (fst merged))) /\
  (forall v h issued outcomes,
     not_str (Batch.API_KEY h) = false ->
     isValid (Batch.referenceMoment v h) = true ->
     length outcomes = 73%nat ->
     Batch.results_of v
       (Batch.with_upstream h (Batch.scripted (Batch.window v h) outcomes)) issued
     = map (fun o => Fulfilled (Batch.yield o)) outcomes).
Proof.
  split; [|split].
  - intros h results. cbv zeta. rewrite aggregate_spec. cbn [fst snd].
    split; [reflexivity | apply sort_perm].
  - intros v h issued K V. cbv zeta.
    split; [apply results_of_length|].
    split; [now apply results_of_run|].
    rewrite (taitung_air_data_run v h K V).
    destruct (Batch.aggregate h (Batch.results_of v h issued)) as [allData n].
    cbn [fst snd]. repeat split; reflexivity.
  - intros v h issued outcomes. apply results_of_scripted.
Qed.

Lemma batch_merges_productive_fetches_witness :
  (let results := Batch.results_of Batch.part_004 Sample.host [] in
   let merged := Batch.aggregate Sample.host results in
   let response := fst (Batch.taitung_air_data Batch.part_004 Sample.host []) in
   length results = 73%nat /\
   results = map (fun t => Fulfilled (Batch.fetched Sample.host t))
                 (Batch.window Batch.part_004 Sample.host) /\
   statusCode response = 200 /\
   field "status" (body response) = Some (JStr "success") /\
   field "error" (body response) = None /\
   field "summary" (body response)
     = Some (JStr (Batch.summary (snd merged) (length (fst merged)))) /\
   field "data" (body response) = Some (records_json (fst merged))) /\
  Batch.results_of Batch.part_003
    (Batch.with_upstream Sample.host
       (Batch.scripted (Batch.window Batch.part_003 Sample.host)
          (repeat (Responded 404 DataNull) 73))) []
  = map (fun o => Fulfilled (Batch.yield o)) (repeat (Responded 404 DataNull) 73).
Proof.
  split.
  - apply (proj1 (proj2 batch_merges_productive_fetches) Batch.part_004 Sample.host []);
      reflexivity.
  - apply (proj2 (proj2 batch_merges_productive_fetches) Batch.part_003 Sample.host []
             (repeat (Responded 404 DataNull) 73));
      reflexivity.
Defined.

(** C4.  When no fetch of a run is productive (each one failed or gave an
    empty list) the endpoint still answers with status 200 and the tag
    [success]; the data array is empty and the summary reports 0 hours and 0
    records. *)
Theorem all_fetches_empty_is_success v h issued :
  not_str (Batch.API_KEY h) = false ->
  isValid (Batch.referenceMoment v h) = true ->
  forallb (fun r => negb (Batch.productive r)) (Batch.results_of v h issued) = true ->
  let response := fst (Batch.taitung_air_data v h issued) in
  statusCode response = 200 /\
  field "status" (body response) = Some (JStr "success") /\
  field "error" (body response) = None /\
  field "data" (body response) = Some (JArr []) /\
  field "summary" (body response) = Some (JStr (Batch.summary 0 0)).
Proof.
  intros K V E. cbv zeta.
  rewrite (taitung_air_data_run v h K V), aggregate_spec.
  rewrite (filter_none _ _ E). cbn [map concat Js.sort length fst].
  repeat split; reflexivity.
Qed.

Lemma all_fetches_empty_is_success_witness :
  let response := fst (Batch.taitung_air_data Batch.part_003 Sample.offline []) in
  statusCode response = 200 /\
  field "status" (body response) = Some (JStr "success") /\
  field "error" (body response) = None /\
  field "data" (body response) = Some (JArr []) /\
  field "summary" (body response) = Some (JStr (Batch.summary 0 0)).
Proof.
  apply (all_fetches_empty_is_success Batch.part_003 Sample.offline []);
    vm_compute; reflexivity.
Defined.

(** C5.  When the credential is absent ([API_KEY] unset or empty) the batch
    endpoint answers 500 with the configuration error and issues no upstream
    request: the list of issued requests is unchanged. *)
Theorem missing_key_stops_batch v h issued :
  not_str (Batch.API_KEY h) = true ->
  Batch.taitung_air_data v h issued
  = (res_status_json 500
       (JObj [("error", JStr "服務配置錯誤：API Key 未設定。");
              ("guidance", JStr (Batch.guidance v))]),
     issued).
Proof. intros K. unfold Batch.taitung_air_data. now rewrite K. Qed.

Lemma missing_key_stops_batch_witness :
  Batch.taitung_air_data Batch.part_004 Sample.keyless []
  = (res_status_json 500
       (JObj [("error", JStr "服務配置錯誤：API Key 未設定。");
              ("guidance", JStr (Batch.guidance Batch.part_004))]),
     []).
Proof. apply (missing_key_stops_batch Batch.part_004 Sample.keyless []). reflexivity. Defined.

(** C7.  A fetch of the batch path (the key is set, or the file is part_003,
    which does not look at the key) always fulfils its promise and sends
    exactly one request.  When the fetch fails (no answer from the network, a
    status outside 200..299, a body that is not a JSON object) the value it
    is fulfilled with is the empty list. *)
Theorem fetch_failure_is_empty_result v h monitorDate issued :
  Batch.may_fetch v h ->
  exists records,
    Batch.fetchDataByTime v h monitorDate issued
    = (Fulfilled records, issued ++ [Batch.request_for h monitorDate]) /\
    (Batch.fetch_fails (upstream h (Batch.request_for h monitorDate)) = true ->
     records = []).
Proof.
  intros M. exists (Batch.fetched h monitorDate). split.
  - now apply fetchDataByTime_run.
  - apply fetched_of_failure.
Qed.

Lemma fetch_failure_is_empty_result_witness :
  exists records,
    Batch.fetchDataByTime Batch.part_004 Sample.host "2025-11-26 03:00" []
    = (Fulfilled records, [] ++ [Batch.request_for Sample.host "2025-11-26 03:00"]) /\
    (Batch.fetch_fails
       (upstream Sample.host (Batch.request_for Sample.host "2025-11-26 03:00")) = true ->
     records = []).
Proof.
  apply (fetch_failure_is_empty_result Batch.part_004 Sample.host "2025-11-26 03:00" []).
  right. reflexivity.
Defined.

(** C8.  When the reference instant is invalid the batch endpoint returns an
    error at once and issues no request: with the key set, the answer is the
    400 response about the reference time; without it, the 500 response about
    the key, which is checked first. *)
Theorem invalid_reference_stops_batch v h issued :
  isValid (Batch.referenceMoment v h) = false ->
  Batch.taitung_air_data v h issued
  = (if not_str (Batch.API_KEY h)
     then res_status_json 500
            (JObj [("error", JStr "服務配置錯誤：API Key 未設定。");
                   ("guidance", JStr (Batch.guidance v))])
     else res_status_json 400
            (JObj [("error", JStr "參考時間格式無效，請檢查 REFERENCE_TIME_STR 設定。")]),
     issued).
Proof.
  intros V. unfold Batch.taitung_air_data.
  destruct (not_str (Batch.API_KEY h)); [reflexivity|].
  fold (Batch.referenceMoment v h). now rewrite V.
Qed.

Lemma invalid_reference_stops_batch_witness :
  Batch.taitung_air_data Batch.part_003 Sample.unread_reference []
  = (res_status_json 400
       (JObj [("error", JStr "參考時間格式無效，請檢查 REFERENCE_TIME_STR 設定。")]),
     []).
Proof.
  apply (invalid_reference_stops_batch Batch.part_003 Sample.unread_reference []).
  reflexivity.
Defined.

(** C3, amended.  For fetched records whose [monitordate] is a date, the data
    the aggregator sends is sorted ascending by each record's own
    [monitordate]; it holds the same records whatever the order in which the
    per-fetch results are supplied; records of equal timestamp stay in the
    order of concatenation; and the sequence itself is the same for every
    supply order when no timestamp occurs in two different fetch results. *)
Theorem aggregate_sorted_and_order_independent h results results' :
  forallb (Js.dated h "monitordate") (Batch.all_records results) = true ->
  Permutation results results' ->
  StronglySorted (Js.not_later h "monitordate") (fst (Batch.aggregate h results)) /\
  Permutation (fst (Batch.aggregate h results)) (fst (Batch.aggregate h results')) /\
  (forall t,
     filter (Js.with_key (Js.stamp_key h "monitordate") t) (fst (Batch.aggregate h results))
     = filter (Js.with_key (Js.stamp_key h "monitordate") t) (Batch.all_records results)) /\
  (Batch.separate_timestamps h results = true ->
   fst (Batch.aggregate h results) = fst (Batch.aggregate h results')).
Proof.
  intros D P. rewrite !aggregate_spec. cbn [fst]. rewrite !concat_productive.
  fold (Batch.all_records results). fold (Batch.all_records results').
  rewrite by_monitordate_ascending.
  assert (D' : forallb (Js.dated h "monitordate") (Batch.all_records results') = true)
    by (eapply forallb_perm; [apply all_records_perm|]; eassumption).
  split; [now apply sort_ascending|]. split; [|split].
  - rewrite !sort_perm. now apply all_records_perm.
  - intros t. apply sort_stable. now apply ascending_keyed.
  - intros S. apply (sort_decided_by_keys _ (Js.stamp_key h "monitordate")).
    + now apply ascending_keyed.
    + now apply ascending_keyed.
    + intros k. now apply records_under_key_perm.
Qed.

Lemma aggregate_sorted_and_order_independent_witness :
  StronglySorted (Js.not_later Sample.host "monitordate")
    (fst (Batch.aggregate Sample.host Sample.interleaved)) /\
  Permutation (fst (Batch.aggregate Sample.host Sample.interleaved))
              (fst (Batch.aggregate Sample.host Sample.interleaved_swapped)) /\
  (forall t,
     filter (Js.with_key (Js.stamp_key Sample.host "monitordate") t)
            (fst (Batch.aggregate Sample.host Sample.interleaved))
     = filter (Js.with_key (Js.stamp_key Sample.host "monitordate") t)
              (Batch.all_records Sample.interleaved)) /\
  (Batch.separate_timestamps Sample.host Sample.interleaved = true ->
   fst (Batch.aggregate Sample.host Sample.interleaved)
   = fst (Batch.aggregate Sample.host Sample.interleaved_swapped)).
Proof.
  apply (aggregate_sorted_and_order_independent
           Sample.host Sample.interleaved Sample.interleaved_swapped).
  - vm_compute. reflexivity.
  - apply perm_swap.
Defined.

(** C3 as stated fails, in two ways.  Two fetch results whose records carry
    the same timestamp come out in the order they were supplied in, so the
    sequence depends on the supply order.  And a record whose [monitordate]
    is not a date compares as equal to every other record, so the sort leaves
    a later reading before an earlier one when such a record stands between
    them: the output is not ascending. *)
Lemma ties_and_undated_records_break_the_order :
  (Permutation Sample.tied Sample.tied_swapped /\
   forallb (Js.dated Sample.host "monitordate") (Batch.all_records Sample.tied) = true /\
   fst (Batch.aggregate Sample.host Sample.tied)
   <> fst (Batch.aggregate Sample.host Sample.tied_swapped)) /\
  (fst (Batch.aggregate Sample.host Sample.undated_between)
   = [Sample.pm25_at_five; Sample.undated_reading; Sample.ozone_at_four] /\
   match Js.time_of Sample.host "monitordate" Sample.pm25_at_five,
         Js.time_of Sample.host "monitordate" Sample.ozone_at_four with
   | Some first, Some last => last < first
   | _, _ => False
   end /\
   ~ StronglySorted (Js.not_later Sample.host "monitordate")
       (fst (Batch.aggregate Sample.host Sample.undated_between))).
Proof.
  split.
  - split; [apply perm_swap|]. split; [vm_compute; reflexivity|].
    vm_compute. discriminate.
  - split; [vm_compute; reflexivity|]. split; [vm_compute; reflexivity|].
    intros S.
    change (fst (Batch.aggregate Sample.host Sample.undated_between))
      with [Sample.pm25_at_five; Sample.undated_reading; Sample.ozone_at_four] in S.
    inversion S as [|? ? _ F]. inversion F as [|? ? N _].
    vm_compute in N. exact N.
Qed.

(** ** The diagnostic route [/test-single-record] *)

Lemma test_single_record_part_004_run h issued :
  not_str (Batch.API_KEY h) = false ->
  Batch.test_single_record_part_004 h issued
  = (Batch.test_success (Batch.fetched h Batch.TEST_DATE),
     issued ++ [Batch.request_for h Batch.TEST_DATE]).
Proof.
  intros K. unfold Batch.test_single_record_part_004. rewrite K.
  unfold bind. rewrite fetchDataByTime_run by (now right). reflexivity.
Qed.

Lemma rejects_fetch_fails o : rejects o = true -> Batch.fetch_fails o = true.
Proof.
  destruct o as [msg | st d]; [reflexivity|]. simpl. intros ->. reflexivity.
Qed.

(** In part_004 a transport failure reaches the client as a success without
    records: the [catch] of the route never sees it. *)
Lemma test_single_record_part_004_hides_failure h issued :
  not_str (Batch.API_KEY h) = false ->
  rejects (upstream h (Batch.request_for h Batch.TEST_DATE)) = true ->
  fst (Batch.test_single_record_part_004 h issued) = Batch.test_success [].
Proof.
  intros K F. rewrite test_single_record_part_004_run by exact K.
  cbn [fst]. now rewrite fetched_of_failure by now apply rejects_fetch_fails.
Qed.

(** In part_002 a rejected call is reported as an error. *)
Lemma test_single_record_part_002_reports_failure h issued :
  not_str (key_or_empty h) = false ->
  rejects (upstream h (Batch.request_for h Batch.TEST_DATE)) = true ->
  exists error,
    fst (Batch.test_single_record_part_002 h issued) = Batch.test_failure error.
Proof.
  intros K F. unfold Batch.test_single_record_part_002. rewrite K.
  unfold bind, axios_get.
  change {| url := "https://data.epa.gov.tw/api/v2/aqx_p_152";
            params := [("api_key", key_or_empty h); ("sitename", "臺東");
                       ("county", "臺東縣"); ("monitordate", Batch.TEST_DATE);
                       ("limit", "1000"); ("format", "json")] |}
    with (Batch.request_for h Batch.TEST_DATE).
  destruct (upstream h (Batch.request_for h Batch.TEST_DATE)) as [msg | st d].
  - eexists. reflexivity.
  - simpl in F. apply negb_true_iff in F. rewrite F. eexists. reflexivity.
Qed.

(** C6.  With the network down, the single-record route of part_002 answers
    500 with the tag [error], as the claim says.  The route of part_004 does
    not: it answers 200 with the tag [success] and no records, just as the
    batch endpoint answers 200 with empty data. *)
Theorem single_record_offline :
  let first := fst (Batch.test_single_record_part_002 Sample.offline []) in
  let later := fst (Batch.test_single_record_part_004 Sample.offline []) in
  let batch := fst (Batch.taitung_air_data Batch.part_004 Sample.offline []) in
  (statusCode first = 500 /\ field "status" (body first) = Some (JStr "error")) /\
  (statusCode later = 200 /\ field "status" (body later) = Some (JStr "success")
   /\ field "total_records_found" (body later) = Some (JNum 0)
   /\ field "all_records_for_test" (body later) = Some (JArr [])) /\
  (statusCode batch = 200 /\ field "status" (body batch) = Some (JStr "success")
   /\ field "data" (body batch) = Some (JArr [])).
Proof. vm_compute. repeat split; reflexivity. Qed.

(** ** The forecast endpoint *)

Lemma by_publishtime_descending h :
  Forecast.by_publishtime_desc h = Js.descending h "publishtime".
Proof. reflexivity. Qed.

Lemma huadong_air_forecast_run v h issued st d records :
  not_str (Forecast.API_KEY h) = false ->
  upstream h (Forecast.request_of v h) = Responded st d ->
  ((200 <=? st) && (st <? 300)) = true ->
  data_records d = inr records ->
  Forecast.huadong_air_forecast v h issued
  = (Forecast.success v h (or_empty records), issued ++ [Forecast.request_of v h]).
Proof.
  intros K U S R. unfold Forecast.huadong_air_forecast. rewrite K.
  unfold bind, axios_get. fold (Forecast.request_of v h).
  rewrite U, S. cbn [data]. now rewrite R.
Qed.

(** C10, amended.  When the upstream call of the forecast endpoint succeeds
    and every record of the target area has a [publishtime] that is a date,
    the records sent are those of the target area, sorted newest first by
    [publishtime]: every record is not earlier than the ones after it.  The
    comparator is the ascending one of the batch endpoint with its arguments
    exchanged.  (In server.js and part_001 a note is sent in place of an
    empty array.) *)
Theorem forecast_newest_first v h issued st d records :
  not_str (Forecast.API_KEY h) = false ->
  upstream h (Forecast.request_of v h) = Responded st d ->
  ((200 <=? st) && (st <? 300)) = true ->
  data_records d = inr records ->
  forallb (Js.dated h "publishtime") (Forecast.in_area (or_empty records)) = true ->
  let response := fst (Forecast.huadong_air_forecast v h issued) in
  let sent := Forecast.huadongRecords h (or_empty records) in
  statusCode response = 200 /\
  field "status" (body response) = Some (JStr "success") /\
  field "data" (body response) = Some (Forecast.data_field v sent) /\
  (sent <> [] -> Forecast.data_field v sent = records_json sent) /\
  Permutation sent (Forecast.in_area (or_empty records)) /\
  StronglySorted (fun a b => Js.not_later h "publishtime" b a) sent /\
  (forall a b, Forecast.by_publishtime_desc h a b = Js.ascending h "publishtime" b a) /\
  (forall a b, Batch.by_monitordate h a b = Js.ascending h "monitordate" a b).
Proof.
  intros K U S R D. cbv zeta.
  rewrite (huadong_air_forecast_run v h issued st d records K U S R).
  cbn [fst]. repeat split.
  - intros N. unfold Forecast.data_field.
    destruct (Forecast.huadongRecords h (or_empty records)) as [|x l]; [now elim N|].
    now destruct v.
  - apply sort_perm.
  - unfold Forecast.huadongRecords. rewrite by_publishtime_descending.
    now apply sort_descending.
Qed.

Lemma forecast_newest_first_witness :
  let records :=
    Some [Sample.forecast "花東" "2025-11-25 16:30" "41";
          Sample.forecast "北部" "2025-11-26 10:30" "55";
          Sample.forecast "花東" "2025-11-26 10:30" "38";
          Sample.forecast "花東" "2025-11-26 16:30" "35"] in
  let response := fst (Forecast.huadong_air_forecast Forecast.server_js Sample.host []) in
  let sent := Forecast.huadongRecords Sample.host (or_empty records) in
  statusCode response = 200 /\
  field "status" (body response) = Some (JStr "success") /\
  field "data" (body response) = Some (Forecast.data_field Forecast.server_js sent) /\
  (sent <> [] -> Forecast.data_field Forecast.server_js sent = records_json sent) /\
  Permutation sent (Forecast.in_area (or_empty records)) /\
  StronglySorted (fun a b => Js.not_later Sample.host "publishtime" b a) sent /\
  (forall a b, Forecast.by_publishtime_desc Sample.host a b
               = Js.ascending Sample.host "publishtime" b a) /\
  (forall a b, Batch.by_monitordate Sample.host a b
               = Js.ascending Sample.host "monitordate" a b).
Proof.
  apply (forecast_newest_first Forecast.server_js Sample.host [] 200
           (DataObject (Some [Sample.forecast "花東" "2025-11-25 16:30" "41";
                              Sample.forecast "北部" "2025-11-26 10:30" "55";
                              Sample.forecast "花東" "2025-11-26 10:30" "38";
                              Sample.forecast "花東" "2025-11-26 16:30" "35"])));
    reflexivity.
Defined.

(** C10 as stated fails: a record of the area whose [publishtime] is not a
    date compares as equal to every other record, so the sort leaves the
    upstream order as it is, and an older forecast is sent before a newer
    one. *)
Lemma undated_forecast_breaks_newest_first :
  let response :=
    fst (Forecast.huadong_air_forecast Forecast.server_js Sample.undated_forecasts []) in
  let sent := [Sample.older_forecast; Sample.undated_forecast; Sample.newer_forecast] in
  statusCode response = 200 /\
  field "status" (body response) = Some (JStr "success") /\
  field "data" (body response) = Some (records_json sent) /\
  match Js.time_of Sample.undated_forecasts "publishtime" Sample.older_forecast,
        Js.time_of Sample.undated_forecasts "publishtime" Sample.newer_forecast with
  | Some first, Some last => first < last
  | _, _ => False
  end /\
  ~ StronglySorted (fun a b => Js.not_later Sample.undated_forecasts "publishtime" b a) sent.
Proof.
  cbv zeta. split; [vm_compute; reflexivity|]. split; [vm_compute; reflexivity|].
  split; [vm_compute; reflexivity|]. split; [vm_compute; reflexivity|].
  intros S. inversion S as [|? ? _ F]. inversion F as [|? ? N _].
  vm_compute in N. exact N.
Qed.

(* ===================================================================== *)
(** * Part III: further properties of the handlers                       *)
(* ===================================================================== *)

(** ** Runs of the batch handler that stop before the fetches *)

Lemma missing_key_run v h issued :
  not_str (Batch.API_KEY h) = true ->
  Batch.taitung_air_data v h issued
  = (res_status_json 500
       (JObj [("error", JStr "服務配置錯誤：API Key 未設定。");
              ("guidance", JStr (Batch.guidance v))]),
     issued).
Proof. intros K. unfold Batch.taitung_air_data. now rewrite K. Qed.

Lemma invalid_reference_run v h issued :
  isValid (Batch.referenceMoment v h) = false ->
  Batch.taitung_air_data v h issued
  = (if not_str (Batch.API_KEY h)
     then res_status_json 500
            (JObj [("error", JStr "服務配置錯誤：API Key 未設定。");
                   ("guidance", JStr (Batch.guidance v))])
     else res_status_json 400
            (JObj [("error", JStr "參考時間格式無效，請檢查 REFERENCE_TIME_STR 設定。")]),
     issued).
Proof.
  intros V. unfold Batch.taitung_air_data.
  destruct (not_str (Batch.API_KEY h)); [reflexivity|].
  fold (Batch.referenceMoment v h). now rewrite V.
Qed.


(** ** The batch endpoint: requests and report *)

(** X1.  A run of the batch endpoint is all or nothing.  Without a key it
    answers 500, with an unreadable reference time 400, and in both cases no
    request goes out; otherwise it answers 200 and has sent the 73 requests of
    the window, in the order of the window, whatever the upstream did. *)
Theorem batch_run_all_or_nothing v h issued :
  let run := Batch.taitung_air_data v h issued in
  statusCode (fst run)
  = (if not_str (Batch.API_KEY h) then 500
     else if isValid (Batch.referenceMoment v h) then 200 else 400) /\
  snd run
  = (if not_str (Batch.API_KEY h) || negb (isValid (Batch.referenceMoment v h))
     then issued
     else issued ++ map (Batch.request_for h) (Batch.window v h)) /\
  length (map (Batch.request_for h) (Batch.window v h)) = 73%nat.
Proof.
  cbv zeta. split; [|split].
  - destruct (not_str (Batch.API_KEY h)) eqn:K.
    + now rewrite missing_key_run.
    + destruct (isValid (Batch.referenceMoment v h)) eqn:V.
      * rewrite (taitung_air_data_run v h K V).
        now destruct (Batch.aggregate h _).
      * rewrite invalid_reference_run by exact V. now rewrite K.
  - destruct (not_str (Batch.API_KEY h)) eqn:K.
    + now rewrite missing_key_run.
    + destruct (isValid (Batch.referenceMoment v h)) eqn:V.
      * now rewrite (taitung_air_data_run v h K V).
      * now rewrite invalid_reference_run.
  - rewrite length_map. apply allMonitorTimes_length.
Qed.

Lemma NoDup_map_Some {A : Type} (l : list A) : NoDup l -> NoDup (map Some l).
Proof.
  induction 1 as [|x l Hx N IH]; simpl; constructor; [|exact IH].
  intros Hin. apply in_map_iff in Hin as (y & E & Hy). injection E as ->. contradiction.
Qed.

Lemma monitordate_of_requests h times :
  map (fun r => Data.get "monitordate" (params r)) (map (Batch.request_for h) times)
  = map Some times.
Proof. rewrite map_map. apply map_ext. reflexivity. Qed.

(** X2.  In a run that fetches, the 73 requests are pairwise different: no
    instant is asked for twice.  Each goes to the monitoring resource with the
    key, the site 臺東, the county 臺東縣, a limit of 1000 and the JSON
    format, and the i-th one asks for the i-th stamp of the window. *)
Theorem batch_requests_distinct v h issued :
  not_str (Batch.API_KEY h) = false ->
  isValid (Batch.referenceMoment v h) = true ->
  exists requests,
    snd (Batch.taitung_air_data v h issued) = issued ++ requests /\
    length requests = 73%nat /\
    NoDup requests /\
    map (fun r => Data.get "monitordate" (params r)) requests
    = map Some (Batch.window v h) /\
    Forall (fun r =>
              url r = "https://data.epa.gov.tw/api/v2/aqx_p_152" /\
              Data.get "api_key" (params r) = Some (Batch.API_KEY h) /\
              Data.get "sitename" (params r) = Some "臺東" /\
              Data.get "county" (params r) = Some "臺東縣" /\
              Data.get "limit" (params r) = Some "1000" /\
              Data.get "format" (params r) = Some "json") requests.
Proof.
  intros K V. exists (map (Batch.request_for h) (Batch.window v h)).
  split; [now rewrite (taitung_air_data_run v h K V)|].
  split; [rewrite length_map; apply allMonitorTimes_length|].
  split; [|split].
  - apply (NoDup_map_inv (fun r => Data.get "monitordate" (params r))).
    rewrite monitordate_of_requests. apply NoDup_map_Some.
    unfold Batch.window. destruct (Batch.referenceMoment v h) as [R|]; [|discriminate].
    apply window_NoDup.
  - apply monitordate_of_requests.
  - apply Forall_forall. intros r Hr. apply in_map_iff in Hr as (t & <- & _).
    repeat split; reflexivity.
Qed.

Lemma batch_requests_distinct_witness :
  exists requests,
    snd (Batch.taitung_air_data Batch.part_003 Sample.host []) = [] ++ requests /\
    length requests = 73%nat /\
    NoDup requests /\
    map (fun r => Data.get "monitordate" (params r)) requests
    = map Some (Batch.window Batch.part_003 Sample.host) /\
    Forall (fun r =>
              url r = "https://data.epa.gov.tw/api/v2/aqx_p_152" /\
              Data.get "api_key" (params r) = Some (Batch.API_KEY Sample.host) /\
              Data.get "sitename" (params r) = Some "臺東" /\
              Data.get "county" (params r) = Some "臺東縣" /\
              Data.get "limit" (params r) = Some "1000" /\
              Data.get "format" (params r) = Some "json") requests.
Proof.
  apply (batch_requests_distinct Batch.part_003 Sample.host []); reflexivity.
Defined.

(** X3.  The time range a successful batch response reports is the window
    itself: [time_range_start] is the stamp of the hour of the reference time
    minus 36 hours and [time_range_end] the stamp of that hour plus 36 hours,
    72 hours apart. *)
Theorem batch_time_range v h issued R :
  not_str (Batch.API_KEY h) = false ->
  Batch.referenceMoment v h = ValidMoment R ->
  exists first last,
    field "time_range_start" (body (fst (Batch.taitung_air_data v h issued)))
    = Some (JStr first) /\
    field "time_range_end" (body (fst (Batch.taitung_air_data v h issued)))
    = Some (JStr last) /\
    Stamp.instant_of first = Some (startOfHour R - 36 * msPerHour) /\
    Stamp.instant_of last = Some (startOfHour R + 36 * msPerHour).
Proof.
  intros K E.
  assert (V : isValid (Batch.referenceMoment v h) = true) by now rewrite E.
  exists (nth 0 (Batch.window v h) ""), (nth 72 (Batch.window v h) "").
  rewrite (taitung_air_data_run v h K V).
  destruct (Batch.aggregate h (Batch.results_of v h issued)) as [allData n].
  cbn [fst body res_json]. unfold Batch.window. rewrite E.
  rewrite !allMonitorTimes_instant by lia.
  repeat split; try reflexivity; f_equal; simpl; lia.
Qed.

Lemma batch_time_range_witness :
  exists first last,
    field "time_range_start"
      (body (fst (Batch.taitung_air_data Batch.part_004 Sample.host [])))
    = Some (JStr first) /\
    field "time_range_end"
      (body (fst (Batch.taitung_air_data Batch.part_004 Sample.host [])))
    = Some (JStr last) /\
    Stamp.instant_of first = Some (startOfHour midnight_2025_11_26 - 36 * msPerHour) /\
    Stamp.instant_of last = Some (startOfHour midnight_2025_11_26 + 36 * msPerHour).
Proof.
  apply (batch_time_range Batch.part_004 Sample.host [] midnight_2025_11_26);
    reflexivity.
Defined.

(** ** The merge: counts and composition *)

Lemma productive_nonempty results :
  (length (filter Batch.productive results)
   <= length (concat (map Batch.records_of (filter Batch.productive results))))%nat.
Proof.
  induction results as [|r results IH]; simpl; [lia|].
  destruct r as [[|x value] | e]; simpl; try exact IH.
  rewrite length_app. lia.
Qed.

Lemma sort_length {A : Type} (comparefn : A -> A -> option Z) l :
  length (Js.sort comparefn l) = length l.
Proof. apply Permutation_length, sort_perm. Qed.

(** X4.  The two numbers of the summary are tied to the results: the count of
    successful hours is at most the number of fetches and at most the number
    of records; the number of records is the sum of the lengths of the fetched
    lists; and the count is zero exactly when no record is sent. *)
Theorem aggregate_counts h results :
  let merged := Batch.aggregate h results in
  (snd merged <= length results)%nat /\
  (snd merged <= length (fst merged))%nat /\
  length (fst merged)
  = list_sum (map (fun r => length (Batch.records_of r)) results) /\
  (snd merged = 0%nat <-> fst merged = []).
Proof.
  cbv zeta. rewrite aggregate_spec. cbn [fst snd]. rewrite sort_length.
  pose proof (productive_nonempty results) as B.
  split; [apply filter_length_le|]. split; [exact B|]. split.
  - rewrite concat_productive, length_concat, map_map. reflexivity.
  - split.
    + intros Z0. apply length_zero_iff_nil in Z0. now rewrite Z0.
    + intros E. apply (f_equal (@length _)) in E. rewrite sort_length in E.
      simpl in E. lia.
Qed.

Lemma filter_twice {A : Type} (p : A -> bool) l : filter p (filter p l) = filter p l.
Proof.
  induction l as [|x l IH]; [reflexivity|]. simpl.
  destruct (p x) eqn:E; simpl; [rewrite E; now f_equal | exact IH].
Qed.

(** X5.  Rejected fetches and fetches without records leave no trace in the
    merge: the aggregate of the results is the aggregate of the productive
    results alone, data and count alike. *)
Theorem aggregate_ignores_unproductive h results :
  Batch.aggregate h results = Batch.aggregate h (filter Batch.productive results).
Proof. rewrite !aggregate_spec. now rewrite filter_twice. Qed.

(** X6.  Merging two batches of results at once gives the sum of their
    counts and, as a multiset, the records of both merges. *)
Theorem aggregate_app h first second :
  snd (Batch.aggregate h (first ++ second))
  = (snd (Batch.aggregate h first) + snd (Batch.aggregate h second))%nat /\
  Permutation (fst (Batch.aggregate h (first ++ second)))
              (fst (Batch.aggregate h first) ++ fst (Batch.aggregate h second)).
Proof.
  rewrite !aggregate_spec. cbn [fst snd].
  rewrite filter_app, map_app, concat_app, length_app.
  split; [reflexivity|]. rewrite !sort_perm. reflexivity.
Qed.

(** ** The sort on data that is already in order *)

Section InOrder.
Variable h : Host.
Variable name : string.

Lemma in_time_order_dated l :
  More.in_time_order h name l = true -> forallb (Js.dated h name) l = true.
Proof.
  induction l as [|a l IH]; [reflexivity|].
  cbn [More.in_time_order forallb]. intros H. apply andb_prop in H as [Ha Hl].
  rewrite (IH Hl), andb_true_r.
  destruct l as [|b l]; [exact Ha|].
  unfold Js.dated. destruct (Js.time_of h name a); [reflexivity|discriminate].
Qed.

Lemma in_time_order_sorted l :
  More.in_time_order h name l = true ->
  StronglySorted (Js.key_le (Js.stamp_key h name)) l.
Proof.
  intros H. apply Sorted_StronglySorted.
  - intros x y z. unfold Js.key_le. lia.
  - induction l as [|a l IH]; [constructor|].
    cbn [More.in_time_order] in H. apply andb_prop in H as [Ha Hl].
    constructor; [now apply IH|].
    destruct l as [|b l]; constructor.
    unfold Js.key_le, Js.stamp_key.
    destruct (Js.time_of h name a), (Js.time_of h name b); try discriminate.
    now apply Z.leb_le.
Qed.

Lemma sort_in_order l :
  More.in_time_order h name l = true -> Js.sort (Js.ascending h name) l = l.
Proof.
  intros H.
  assert (K : Js.keyed (Js.ascending h name) (Js.stamp_key h name) l)
    by now apply ascending_keyed, in_time_order_dated.
  apply (sorted_stable_unique (Js.stamp_key h name)).
  - now apply sort_sorted.
  - now apply in_time_order_sorted.
  - intros k. now apply sort_stable.
Qed.

End InOrder.

(** X7.  When the fetched records, concatenated in the order of the window,
    are already in ascending order of [monitordate], the sort leaves them as
    they are: the data sent is the concatenation. *)
Theorem ordered_results_keep_their_order h results :
  More.in_time_order h "monitordate" (Batch.all_records results) = true ->
  fst (Batch.aggregate h results) = Batch.all_records results.
Proof.
  intros H. rewrite aggregate_spec. cbn [fst]. rewrite concat_productive.
  fold (Batch.all_records results). now apply sort_in_order.
Qed.

Lemma ordered_results_keep_their_order_witness :
  fst (Batch.aggregate Sample.host Sample.interleaved_swapped)
  = Batch.all_records Sample.interleaved_swapped.
Proof.
  apply (ordered_results_keep_their_order Sample.host Sample.interleaved_swapped).
  vm_compute. reflexivity.
Defined.

(** ** One fetch *)

(** X8.  A fetch whose request is answered with a status in 200..299 and a
    JSON object returns the [records] array of that object unchanged, and the
    empty list when the object has no [records]; it sends one request. *)
Theorem fetch_returns_upstream_records v h monitorDate issued st records :
  Batch.may_fetch v h ->
  upstream h (Batch.request_for h monitorDate) = Responded st (DataObject records) ->
  ((200 <=? st) && (st <? 300)) = true ->
  Batch.fetchDataByTime v h monitorDate issued
  = (Fulfilled (match records with
                | Some l => l
                | None => []
                end),
     issued ++ [Batch.request_for h monitorDate]).
Proof.
  intros M U S. rewrite fetchDataByTime_run by exact M.
  unfold Batch.fetched, Batch.yield. rewrite U, S. reflexivity.
Qed.

Lemma fetch_returns_upstream_records_witness :
  Batch.fetchDataByTime Batch.part_004 Sample.host "2025-11-26 00:00" []
  = (Fulfilled (match Some [Sample.reading "PM2.5" "2025-11-26 00:00" "9"] with
                | Some l => l
                | None => []
                end),
     [] ++ [Batch.request_for Sample.host "2025-11-26 00:00"]).
Proof.
  apply (fetch_returns_upstream_records Batch.part_004 Sample.host
           "2025-11-26 00:00" [] 200
           (Some [Sample.reading "PM2.5" "2025-11-26 00:00" "9"]));
    [right|..]; reflexivity.
Defined.

(** X9.  Without a key the two versions of the fetch part ways.  In part_004
    the promise is rejected with the message of the [throw] and no request
    goes out; in part_003 the request is sent all the same, with an empty
    [api_key], and the promise is fulfilled. *)
Theorem fetch_without_key h monitorDate issued :
  not_str (Batch.API_KEY h) = true ->
  Batch.fetchDataByTime Batch.part_004 h monitorDate issued
  = (Rejected {| message := "API Key 環境變數未設置。"; response := None |}, issued) /\
  (exists records,
     Batch.fetchDataByTime Batch.part_003 h monitorDate issued
     = (Fulfilled records, issued ++ [Batch.request_for h monitorDate])) /\
  Data.get "api_key" (params (Batch.request_for h monitorDate)) = Some "".
Proof.
  intros K. split; [|split].
  - unfold Batch.fetchDataByTime. now rewrite K.
  - eexists. apply fetchDataByTime_run. now left.
  - cbn. f_equal. unfold not_str in K. now apply String.eqb_eq in K.
Qed.

Lemma fetch_without_key_witness :
  Batch.fetchDataByTime Batch.part_004 Sample.keyless "2025-11-26 00:00" []
  = (Rejected {| message := "API Key 環境變數未設置。"; response := None |}, []) /\
  (exists records,
     Batch.fetchDataByTime Batch.part_003 Sample.keyless "2025-11-26 00:00" []
     = (Fulfilled records, [] ++ [Batch.request_for Sample.keyless "2025-11-26 00:00"])) /\
  Data.get "api_key" (params (Batch.request_for Sample.keyless "2025-11-26 00:00"))
  = Some "".
Proof.
  apply (fetch_without_key Sample.keyless "2025-11-26 00:00" []). reflexivity.
Defined.

(** ** The diagnostic route *)

Lemma test_single_record_part_002_run h issued :
  not_str (key_or_empty h) = false ->
  Batch.test_single_record_part_002 h issued
  = (match upstream h (Batch.request_for h Batch.TEST_DATE) with
     | NoResponse msg => Batch.test_failure {| message := msg; response := None |}
     | Responded st d =>
         if (200 <=? st) && (st <? 300)
         then match data_records d with
              | inr records => Batch.test_success (or_empty records)
              | inl error => Batch.test_failure error
              end
         else Batch.test_failure
                {| message := ("Request failed with status code " ++ Text.of_Z st)%string;
                   response := Some {| status := st; data := d |} |}
     end,
     issued ++ [Batch.request_for h Batch.TEST_DATE]).
Proof.
  intros K. unfold Batch.test_single_record_part_002. rewrite K.
  unfold bind, axios_get.
  change {| url := "https://data.epa.gov.tw/api/v2/aqx_p_152";
            params := [("api_key", key_or_empty h); ("sitename", "臺東");
                       ("county", "臺東縣"); ("monitordate", Batch.TEST_DATE);
                       ("limit", "1000"); ("format", "json")] |}
    with (Batch.request_for h Batch.TEST_DATE).
  destruct (upstream h (Batch.request_for h Batch.TEST_DATE)) as [msg | st d];
    [reflexivity|].
  destruct ((200 <=? st) && (st <? 300)); [|reflexivity].
  cbn [data]. destruct (data_records d); reflexivity.
Qed.

(** X10.  The diagnostic route is all or nothing in both of its versions:
    without a key it answers 500 with its own message and sends nothing; with
    a key it sends exactly one request, for 2025-11-26 17:00, whatever the
    answer. *)
Theorem test_route_all_or_nothing h issued :
  (not_str (key_or_empty h) = true /\
   Batch.test_single_record_part_002 h issued = (Batch.test_no_key, issued) /\
   Batch.test_single_record_part_004 h issued = (Batch.test_no_key, issued) /\
   statusCode Batch.test_no_key = 500) \/
  (not_str (key_or_empty h) = false /\
   snd (Batch.test_single_record_part_002 h issued)
   = issued ++ [Batch.request_for h "2025-11-26 17:00"] /\
   snd (Batch.test_single_record_part_004 h issued)
   = issued ++ [Batch.request_for h "2025-11-26 17:00"]).
Proof.
  destruct (not_str (key_or_empty h)) eqn:K; [left | right].
  - unfold Batch.test_single_record_part_002, Batch.test_single_record_part_004,
      Batch.API_KEY. rewrite K. repeat split; reflexivity.
  - split; [reflexivity|].
    rewrite test_single_record_part_002_run, test_single_record_part_004_run by exact K.
    split; reflexivity.
Qed.

Lemma find_first {A : Type} (p : A -> bool) pre x post :
  forallb (fun a => negb (p a)) pre = true -> p x = true ->
  find p (pre ++ x :: post) = Some x.
Proof.
  intros N Hx. induction pre as [|a pre IH]; simpl.
  - now rewrite Hx.
  - simpl in N. apply andb_prop in N as [Na N]. apply negb_true_iff in Na.
    rewrite Na. now apply IH.
Qed.

Lemma find_none {A : Type} (p : A -> bool) l :
  forallb (fun a => negb (p a)) l = true -> find p l = None.
Proof.
  induction l as [|a l IH]; [reflexivity|]. simpl. intros N.
  apply andb_prop in N as [Na N]. apply negb_true_iff in Na. rewrite Na. now apply IH.
Qed.

(** X11.  When the upstream answers the diagnostic request with an accepted
    status and a JSON object, both versions of the route answer 200 with the
    tag [success]; [total_records_found] is the number of records,
    [all_records_for_test] echoes them in order, and [pm25_record] is the
    first record whose [itemengname] is PM2.5, or a note when there is
    none. *)
Theorem test_route_report h issued st records :
  not_str (key_or_empty h) = false ->
  upstream h (Batch.request_for h Batch.TEST_DATE) = Responded st (DataObject records) ->
  More.accepted st = true ->
  let found := or_empty records in
  let first := fst (Batch.test_single_record_part_002 h issued) in
  let later := fst (Batch.test_single_record_part_004 h issued) in
  first = later /\
  statusCode later = 200 /\
  field "status" (body later) = Some (JStr "success") /\
  field "total_records_found" (body later) = Some (JNum (Z.of_nat (length found))) /\
  field "all_records_for_test" (body later) = Some (records_json found) /\
  (More.no_pm25 found = true ->
   field "pm25_record" (body later) = Some (JStr "未找到 PM2.5 紀錄")) /\
  (forall before r after,
     found = before ++ r :: after ->
     More.no_pm25 before = true ->
     field_is "itemengname" "PM2.5" r = true ->
     field "pm25_record" (body later) = Some (record_json r)).
Proof.
  intros K U S. cbv zeta.
  rewrite test_single_record_part_002_run, test_single_record_part_004_run by exact K.
  unfold Batch.fetched, Batch.yield. rewrite U. unfold More.accepted in S. rewrite S.
  cbn [fst data_records]. repeat split.
  - intros N. cbn. unfold Batch.pm25_or_note. now rewrite (find_none _ _ N).
  - intros before r after E N P. cbn. unfold Batch.pm25_or_note.
    now rewrite E, (find_first _ _ _ _ N P).
Qed.

Lemma test_route_report_witness :
  let h := More.answering 200 (DataObject (Some More.hour_17)) in
  let found := or_empty (Some More.hour_17) in
  let first := fst (Batch.test_single_record_part_002 h []) in
  let later := fst (Batch.test_single_record_part_004 h []) in
  first = later /\
  statusCode later = 200 /\
  field "status" (body later) = Some (JStr "success") /\
  field "total_records_found" (body later) = Some (JNum (Z.of_nat (length found))) /\
  field "all_records_for_test" (body later) = Some (records_json found) /\
  (More.no_pm25 found = true ->
   field "pm25_record" (body later) = Some (JStr "未找到 PM2.5 紀錄")) /\
  (forall before r after,
     found = before ++ r :: after ->
     More.no_pm25 before = true ->
     field_is "itemengname" "PM2.5" r = true ->
     field "pm25_record" (body later) = Some (record_json r)).
Proof.
  apply (test_route_report (More.answering 200 (DataObject (Some More.hour_17))) [] 200
           (Some More.hour_17));
    reflexivity.
Defined.

(** X12.  The two versions of the diagnostic route answer alike, and send the
    same request, whenever the call is not rejected and the body is not
    [null]: moving the route onto [fetchDataByTime] changed only what happens
    on a failure. *)
Theorem test_route_versions_agree h issued st d :
  not_str (key_or_empty h) = false ->
  upstream h (Batch.request_for h Batch.TEST_DATE) = Responded st d ->
  More.accepted st = true ->
  More.readable d = true ->
  Batch.test_single_record_part_002 h issued
  = Batch.test_single_record_part_004 h issued.
Proof.
  intros K U S R.
  rewrite test_single_record_part_002_run, test_single_record_part_004_run by exact K.
  unfold Batch.fetched, Batch.yield. rewrite U. unfold More.accepted in S. rewrite S.
  destruct d; [discriminate | reflexivity | reflexivity].
Qed.

Lemma test_route_versions_agree_witness :
  Batch.test_single_record_part_002 (More.answering 200 (DataText "<html>busy</html>")) []
  = Batch.test_single_record_part_004 (More.answering 200 (DataText "<html>busy</html>")) [].
Proof.
  apply (test_route_versions_agree
           (More.answering 200 (DataText "<html>busy</html>")) [] 200
           (DataText "<html>busy</html>"));
    reflexivity.
Defined.

(** ** The forecast endpoint: every outcome *)

Lemma huadong_air_forecast_any v h issued :
  not_str (Forecast.API_KEY h) = false ->
  Forecast.huadong_air_forecast v h issued
  = (match upstream h (Forecast.request_of v h) with
     | NoResponse msg => Forecast.failure v {| message := msg; response := None |}
     | Responded st d =>
         if (200 <=? st) && (st <? 300)
         then match data_records d with
              | inr records => Forecast.success v h (or_empty records)
              | inl error => Forecast.failure v error
              end
         else Forecast.failure v
                {| message := ("Request failed with status code " ++ Text.of_Z st)%string;
                   response := Some {| status := st; data := d |} |}
     end,
     issued ++ [Forecast.request_of v h]).
Proof.
  intros K. unfold Forecast.huadong_air_forecast. rewrite K.
  unfold bind, axios_get. fold (Forecast.request_of v h).
  destruct (upstream h (Forecast.request_of v h)) as [msg | st d]; [reflexivity|].
  destruct ((200 <=? st) && (st <? 300)); [|reflexivity].
  cbn [data]. destruct (data_records d); reflexivity.
Qed.

(** X13.  The forecast endpoint is all or nothing in its three versions:
    without a key it answers 500 with the tag [error] and sends nothing; with
    a key it sends exactly one request, to the resource of its version with
    the key, a limit of 1000 and the JSON format, whatever the answer. *)
Theorem forecast_all_or_nothing v h issued :
  (not_str (Forecast.API_KEY h) = true /\
   Forecast.huadong_air_forecast v h issued = (Forecast.no_key v, issued) /\
   statusCode (Forecast.no_key v) = 500 /\
   field "status" (body (Forecast.no_key v)) = Some (JStr "error")) \/
  (not_str (Forecast.API_KEY h) = false /\
   snd (Forecast.huadong_air_forecast v h issued)
   = issued ++ [{| url := Forecast.API_ENDPOINT v;
                   params := [("api_key", Forecast.API_KEY h); ("limit", "1000");
                              ("format", "json")] |}]).
Proof.
  destruct (not_str (Forecast.API_KEY h)) eqn:K; [left | right].
  - unfold Forecast.huadong_air_forecast. rewrite K. repeat split; reflexivity.
  - split; [reflexivity|]. now rewrite huadong_air_forecast_any.
Qed.

Lemma field_is_area r :
  field_is "area" Forecast.TARGET_AREA r = true <-> Data.get "area" r = Some "花東".
Proof.
  unfold field_is. destruct (Data.get "area" r) as [a|]; [|split; discriminate].
  split.
  - intros E. apply String.eqb_eq in E. now rewrite E.
  - intros E. injection E as ->. reflexivity.
Qed.

(** X14.  On a successful call the forecast endpoint sends exactly the
    upstream records whose [area] is 花東, each as often as the upstream
    gave it, and no other record; the summary states how many records the
    upstream gave and how many of them are sent. *)
Theorem forecast_sends_area_records v h issued st records :
  not_str (Forecast.API_KEY h) = false ->
  upstream h (Forecast.request_of v h) = Responded st (DataObject records) ->
  More.accepted st = true ->
  let all := or_empty records in
  let sent := Forecast.huadongRecords h all in
  let response := fst (Forecast.huadong_air_forecast v h issued) in
  Permutation sent (Forecast.in_area all) /\
  (forall r, In r sent <-> In r all /\ Data.get "area" r = Some "花東") /\
  field "data" (body response) = Some (Forecast.data_field v sent) /\
  field "summary" (body response)
  = Some (JStr (Forecast.summary (length all) (length (Forecast.in_area all)))) /\
  field "source_api" (body response) = Some (JStr (Forecast.API_ENDPOINT v)) /\
  field "filter_area" (body response) = Some (JStr "花東").
Proof.
  intros K U S. cbv zeta.
  rewrite huadong_air_forecast_any by exact K. rewrite U.
  unfold More.accepted in S. rewrite S. cbn [fst data_records].
  assert (P : Permutation (Forecast.huadongRecords h (or_empty records))
                          (Forecast.in_area (or_empty records)))
    by apply sort_perm.
  split; [exact P|]. split.
  - intros r. split.
    + intros Hr. apply (Permutation_in r P) in Hr.
      apply filter_In in Hr as [Hr A]. split; [exact Hr | now apply field_is_area].
    + intros [Hr A]. apply (Permutation_in r (Permutation_sym P)).
      apply filter_In. split; [exact Hr | now apply field_is_area].
  - unfold Forecast.success. cbv zeta. rewrite (Permutation_length P).
    repeat split; reflexivity.
Qed.

Lemma forecast_sends_area_records_witness :
  let records :=
    Some [Sample.forecast "花東" "2025-11-25 16:30" "41";
          Sample.forecast "北部" "2025-11-26 10:30" "55";
          Sample.forecast "花東" "2025-11-26 10:30" "38";
          Sample.forecast "花東" "2025-11-26 16:30" "35"] in
  let all := or_empty records in
  let sent := Forecast.huadongRecords Sample.host all in
  let response := fst (Forecast.huadong_air_forecast Forecast.part_004 Sample.host []) in
  Permutation sent (Forecast.in_area all) /\
  (forall r, In r sent <-> In r all /\ Data.get "area" r = Some "花東") /\
  field "data" (body response) = Some (Forecast.data_field Forecast.part_004 sent) /\
  field "summary" (body response)
  = Some (JStr (Forecast.summary (length all) (length (Forecast.in_area all)))) /\
  field "source_api" (body response) = Some (JStr (Forecast.API_ENDPOINT Forecast.part_004)) /\
  field "filter_area" (body response) = Some (JStr "花東").
Proof.
  apply (forecast_sends_area_records Forecast.part_004 Sample.host [] 200
           (Some [Sample.forecast "花東" "2025-11-25 16:30" "41";
                  Sample.forecast "北部" "2025-11-26 10:30" "55";
                  Sample.forecast "花東" "2025-11-26 10:30" "38";
                  Sample.forecast "花東" "2025-11-26 16:30" "35"]));
    reflexivity.
Defined.

(** X15.  When the upstream answers the forecast request with a status axios
    does not accept, server.js and part_004 answer 500 with the tag [error]
    and the axios message as detail, while part_001 passes the upstream
    status on as its own, with the tag [api_error] and the code in the
    message. *)
Theorem forecast_upstream_status v h issued st d :
  not_str (Forecast.API_KEY h) = false ->
  upstream h (Forecast.request_of v h) = Responded st d ->
  More.accepted st = false ->
  let response := fst (Forecast.huadong_air_forecast v h issued) in
  match v with
  | Forecast.part_001 =>
      statusCode response = st /\
      field "status" (body response) = Some (JStr "api_error") /\
      field "message" (body response)
      = Some (JStr ("環境部 API 錯誤碼 " ++ Text.of_Z st)%string)
  | _ =>
      statusCode response = 500 /\
      field "status" (body response) = Some (JStr "error") /\
      field "detail" (body response)
      = Some (JStr ("Request failed with status code " ++ Text.of_Z st)%string)
  end.
Proof.
  intros K U S. cbv zeta. rewrite huadong_air_forecast_any by exact K. rewrite U.
  unfold More.accepted in S. rewrite S. cbn [fst].
  destruct v; repeat split; reflexivity.
Qed.

Lemma forecast_upstream_status_witness :
  let response :=
    fst (Forecast.huadong_air_forecast Forecast.part_001
           (More.answering 403 (DataText "Forbidden")) []) in
  statusCode response = 403 /\
  field "status" (body response) = Some (JStr "api_error") /\
  field "message" (body response)
  = Some (JStr ("環境部 API 錯誤碼 " ++ Text.of_Z 403)%string).
Proof.
  apply (forecast_upstream_status Forecast.part_001
           (More.answering 403 (DataText "Forbidden")) [] 403 (DataText "Forbidden"));
    reflexivity.
Defined.

(** X16.  When the forecast call gets no answer at all, or an accepted answer
    whose body is [null], every version answers 500; the tag is
    [server_error] in part_001 and [error] in the others, and for a call
    without answer the detail is the message of the network error. *)
Theorem forecast_without_answer v h issued :
  not_str (Forecast.API_KEY h) = false ->
  (exists msg, upstream h (Forecast.request_of v h) = NoResponse msg) \/
  (exists st, upstream h (Forecast.request_of v h) = Responded st DataNull
              /\ More.accepted st = true) ->
  let response := fst (Forecast.huadong_air_forecast v h issued) in
  statusCode response = 500 /\
  field "status" (body response)
  = Some (JStr match v with
               | Forecast.part_001 => "server_error"
               | _ => "error"
               end) /\
  match upstream h (Forecast.request_of v h) with
  | NoResponse msg => field "detail" (body response) = Some (JStr msg)
  | Responded _ _ => field "data" (body response) = None
  end.
Proof.
  intros K O. cbv zeta. rewrite huadong_air_forecast_any by exact K.
  destruct O as [(msg & U) | (st & U & S)]; rewrite U.
  - destruct v; repeat split; reflexivity.
  - unfold More.accepted in S. rewrite S. destruct v; repeat split; reflexivity.
Qed.

Lemma forecast_without_answer_witness :
  let response :=
    fst (Forecast.huadong_air_forecast Forecast.part_001 Sample.offline []) in
  statusCode response = 500 /\
  field "status" (body response) = Some (JStr "server_error") /\
  match upstream Sample.offline
          (Forecast.request_of Forecast.part_001 Sample.offline) with
  | NoResponse msg => field "detail" (body response) = Some (JStr msg)
  | Responded _ _ => field "data" (body response) = None
  end.
Proof.
  apply (forecast_without_answer Forecast.part_001 Sample.offline []);
    [reflexivity | left; eexists; reflexivity].
Defined.

(** X17.  When the call succeeds but no upstream record is in the area, the
    summary counts 0 matching records; part_004 sends an empty array, while
    server.js and part_001 send a note in its place. *)
Theorem forecast_no_match v h issued st records :
  not_str (Forecast.API_KEY h) = false ->
  upstream h (Forecast.request_of v h) = Responded st (DataObject records) ->
  More.accepted st = true ->
  forallb (fun r => negb (field_is "area" Forecast.TARGET_AREA r)) (or_empty records)
  = true ->
  let response := fst (Forecast.huadong_air_forecast v h issued) in
  statusCode response = 200 /\
  field "summary" (body response)
  = Some (JStr (Forecast.summary (length (or_empty records)) 0)) /\
  field "data" (body response)
  = Some match v with
         | Forecast.part_004 => JArr []
         | _ => JStr "API 連線成功，但目前沒有找到符合『花東』地區的預報紀錄。"
         end.
Proof.
  intros K U S N. cbv zeta.
  rewrite huadong_air_forecast_any by exact K. rewrite U.
  unfold More.accepted in S. rewrite S. cbn [fst data_records].
  unfold Forecast.success, Forecast.huadongRecords.
  rewrite (filter_none (fun record => field_is "area" Forecast.TARGET_AREA record) _ N).
  destruct v; repeat split; reflexivity.
Qed.

Lemma forecast_no_match_witness :
  let response :=
    fst (Forecast.huadong_air_forecast Forecast.server_js
           (More.answering 200 (DataObject (Some [Sample.forecast "北部" "2025-11-26 10:30" "55"])))
           []) in
  statusCode response = 200 /\
  field "summary" (body response) = Some (JStr (Forecast.summary 1 0)) /\
  field "data" (body response)
  = Some (JStr "API 連線成功，但目前沒有找到符合『花東』地區的預報紀錄。").
Proof.
  apply (forecast_no_match Forecast.server_js
           (More.answering 200 (DataObject (Some [Sample.forecast "北部" "2025-11-26 10:30" "55"])))
           [] 200 (Some [Sample.forecast "北部" "2025-11-26 10:30" "55"]));
    reflexivity.
Defined.

(** ** The first and the last forecast server *)

Lemma part_000_key_not_empty h : not_str (Part000.API_KEY h) = false.
Proof.
  unfold Part000.API_KEY. destruct (env_API_KEY h) as [k|]; [|reflexivity].
  destruct (not_str k) eqn:E; [reflexivity | exact E].
Qed.

(** X18.  In part_000 the key falls back to the literal in the file, so the
    key check can never fire: for every host the handler sends exactly one
    request, its [api_key] is the variable when that is set and not empty and
    the built-in key otherwise, and the answer is never the configuration
    error (it has status 200 or 500 and no [guidance]). *)
Theorem part_000_never_without_key h issued :
  let run := Part000.huadong_air_forecast h issued in
  snd run
  = issued ++ [{| url := "https://data.moenv.gov.tw/api/v2/226e6d3c-4232-4ec5-aec8-688894aa1f67";
                  params := [("api_key",
                               match env_API_KEY h with
                               | Some k =>
                                   if String.eqb k ""
                                   then "0476db62-ac45-42aa-a868-9b1e57f72746"
                                   else k
                               | None => "0476db62-ac45-42aa-a868-9b1e57f72746"
                               end);
                             ("limit", "1000"); ("format", "json")] |}] /\
  (statusCode (fst run) = 200 \/ statusCode (fst run) = 500) /\
  field "guidance" (body (fst run)) = None.
Proof.
  cbv zeta. unfold Part000.huadong_air_forecast.
  rewrite part_000_key_not_empty. unfold bind, axios_get.
  destruct (upstream h _) as [msg | st d].
  - repeat split; auto.
  - destruct ((200 <=? st) && (st <? 300)).
    + cbn [data]. destruct (data_records d); repeat split; auto.
    + repeat split; auto.
Qed.

Lemma part_001_final_run h issued :
  not_str (key_or_empty h) = false ->
  Part001Final.huadong_air_forecast h issued
  = Forecast.huadong_air_forecast Forecast.server_js h issued.
Proof.
  intros K. unfold Part001Final.huadong_air_forecast, Forecast.huadong_air_forecast,
    Part001Final.API_KEY, Forecast.API_KEY.
  rewrite K. unfold bind, axios_get.
  change Part001Final.API_ENDPOINT with (Forecast.API_ENDPOINT Forecast.server_js).
  destruct (upstream h _) as [msg | st d]; [reflexivity|].
  destruct ((200 <=? st) && (st <? 300)); [|reflexivity].
  cbn [data]. destruct (data_records d); reflexivity.
Qed.

(** X19.  The last forecast server (part_001, second file) behaves as
    server.js on every host: it sends the same requests and answers with the
    same status and the same body, but for the text of the [guidance] that
    goes with a missing key. *)
Theorem part_001_final_as_server_js h issued k :
  String.eqb k "guidance" = false ->
  let final := Part001Final.huadong_air_forecast h issued in
  let server := Forecast.huadong_air_forecast Forecast.server_js h issued in
  snd final = snd server /\
  statusCode (fst final) = statusCode (fst server) /\
  field k (body (fst final)) = field k (body (fst server)).
Proof.
  intros G. cbv zeta. destruct (not_str (key_or_empty h)) eqn:K.
  - unfold Part001Final.huadong_air_forecast, Forecast.huadong_air_forecast,
      Part001Final.API_KEY, Forecast.API_KEY.
    rewrite K. repeat split. cbn.
    destruct (String.eqb k "status"); [reflexivity|].
    destruct (String.eqb k "message"); [reflexivity|].
    now rewrite G.
  - now rewrite part_001_final_run.
Qed.

Lemma part_001_final_as_server_js_witness :
  let final := Part001Final.huadong_air_forecast Sample.keyless [] in
  let server := Forecast.huadong_air_forecast Forecast.server_js Sample.keyless [] in
  snd final = snd server /\
  statusCode (fst final) = statusCode (fst server) /\
  field "message" (body (fst final)) = field "message" (body (fst server)).
Proof.
  apply (part_001_final_as_server_js Sample.keyless [] "message"). reflexivity.
Defined.

(** ** The batch server of part_002 and its router *)

Lemma part_002_run h app issued :
  Part002.taitung_air_data h app issued
  = ((fst (Batch.taitung_air_data Batch.part_003 h issued),
      if not_str (Batch.API_KEY h) then app
      else app ++ [("/test-single-record", Part002.TestSingleRecord)]),
     snd (Batch.taitung_air_data Batch.part_003 h issued)).
Proof.
  unfold Part002.taitung_air_data, Batch.taitung_air_data.
  destruct (not_str (Batch.API_KEY h)); [reflexivity|].
  change (moment h (Batch.REFERENCE_TIME_STR Batch.part_003) "YYYY-MM-DD HH:mm")
    with (moment h Part002.REFERENCE_TIME_STR "YYYY-MM-DD HH:mm").
  destruct (isValid (moment h Part002.REFERENCE_TIME_STR "YYYY-MM-DD HH:mm"));
    [|reflexivity].
  cbn [negb]. unfold bind, Part002.fetchDataByTime.
  destruct (mapM (Batch.fetchDataByTime Batch.part_003 h) _ issued) as [results issued'].
  destruct (Batch.aggregate h results) as [allData n]. reflexivity.
Qed.

(** X20.  The batch handler of part_002 answers every request as the handler
    of part_003 does and sends the same upstream requests; what it adds is a
    change of the router: when the key is set, and only then, one more route
    for [/test-single-record] is registered by the run. *)
Theorem part_002_batch_as_part_003 h app issued :
  let run := Part002.taitung_air_data h app issued in
  fst (fst run) = fst (Batch.taitung_air_data Batch.part_003 h issued) /\
  snd run = snd (Batch.taitung_air_data Batch.part_003 h issued) /\
  snd (fst run)
  = (if not_str (Batch.API_KEY h) then app
     else app ++ [("/test-single-record", Part002.TestSingleRecord)]).
Proof. cbv zeta. rewrite part_002_run. repeat split; reflexivity. Qed.

Lemma route_app path app rest :
  Part002.route path (app ++ rest)
  = match Part002.route path app with
    | Some handler => Some handler
    | None => Part002.route path rest
    end.
Proof.
  induction app as [|[p handler] app IH]; [reflexivity|]. simpl.
  destruct (String.eqb path p); [reflexivity | exact IH].
Qed.

Lemma batch_requests_routes n :
  forall h app issued,
    Part002.route "/taitung-air-data" app = Some Part002.TaitungAirData ->
    fst (Part002.batch_requests n h app issued)
    = (if not_str (Batch.API_KEY h) then app
       else app ++ repeat ("/test-single-record", Part002.TestSingleRecord) n).
Proof.
  induction n as [|n IH]; intros h app issued R.
  - simpl. destruct (not_str (Batch.API_KEY h)); [reflexivity | now rewrite app_nil_r].
  - cbn [Part002.batch_requests]. unfold bind at 1. unfold Part002.serve. rewrite R.
    unfold bind at 1. rewrite part_002_run. unfold ret. cbn [fst snd].
    rewrite IH.
    + destruct (not_str (Batch.API_KEY h)); [reflexivity|].
      now rewrite <- app_assoc.
    + destruct (not_str (Batch.API_KEY h)); [exact R|].
      rewrite route_app. now rewrite R.
Qed.

(** X21.  The route [/test-single-record] of part_002 does not exist when the
    server starts: a request for it is not routed and nothing is sent
    upstream.  It comes into being with the first batch request that passes
    the key check, and never without a key; and since every such request
    registers it again, the router holds [n] copies after [n] of them. *)
Theorem part_002_router h issued n :
  Part002.serve h "/test-single-record" Part002.loaded issued
  = (None, Part002.loaded, issued) /\
  fst (Part002.batch_requests n h Part002.loaded issued)
  = (if not_str (Batch.API_KEY h) then Part002.loaded
     else Part002.loaded ++ repeat ("/test-single-record", Part002.TestSingleRecord) n) /\
  Part002.route "/test-single-record"
    (fst (Part002.batch_requests n h Part002.loaded issued))
  = (if not_str (Batch.API_KEY h) || (n =? 0)%nat then None
     else Some Part002.TestSingleRecord).
Proof.
  split; [reflexivity|].
  assert (E := batch_requests_routes n h Part002.loaded issued eq_refl).
  split; [exact E|]. rewrite E.
  destruct (not_str (Batch.API_KEY h)); [reflexivity|].
  rewrite route_app. cbn [Part002.route Part002.loaded Part002.app_get app orb].
  destruct n; reflexivity.
Qed.

(** ** What a batch run depends on, and what it never asks *)

Lemma sort_ext {A : Type} (c1 c2 : A -> A -> option Z) l :
  (forall a b, c1 a b = c2 a b) -> Js.sort c1 l = Js.sort c2 l.
Proof.
  intros E. induction l as [|x l IH]; [reflexivity|]. simpl. rewrite IH.
  generalize (Js.sort c2 l). intros s. induction s as [|y s IHs]; [reflexivity|].
  simpl. unfold Js.goes_after. rewrite E, IHs. reflexivity.
Qed.

(** X22.  The answer of the batch endpoint depends on the upstream only
    through the outcomes of the 73 requests of the window: two hosts with the
    same key, the same reference moment and the same date parser, whose
    upstreams treat those requests alike, get the same response and send the
    same requests, however else the upstreams differ. *)
Theorem batch_depends_only_on_window v h1 h2 issued :
  env_API_KEY h1 = env_API_KEY h2 ->
  Batch.referenceMoment v h1 = Batch.referenceMoment v h2 ->
  Date_parse h1 = Date_parse h2 ->
  map (upstream h1) (map (Batch.request_for h1) (Batch.window v h1))
  = map (upstream h2) (map (Batch.request_for h2) (Batch.window v h2)) ->
  Batch.taitung_air_data v h1 issued = Batch.taitung_air_data v h2 issued.
Proof.
  intros Ek Em Ed Eu.
  assert (Ka : Batch.API_KEY h1 = Batch.API_KEY h2)
    by (unfold Batch.API_KEY, key_or_empty; now rewrite Ek).
  assert (W : Batch.window v h1 = Batch.window v h2)
    by (unfold Batch.window; now rewrite Em).
  assert (Rq : forall t, Batch.request_for h1 t = Batch.request_for h2 t)
    by (intros t; unfold Batch.request_for, Batch.fetch_params; now rewrite Ka).
  destruct (not_str (Batch.API_KEY h1)) eqn:K1.
  - rewrite missing_key_run by exact K1.
    rewrite missing_key_run by (now rewrite <- Ka). reflexivity.
  - assert (K2 : not_str (Batch.API_KEY h2) = false) by now rewrite <- Ka.
    destruct (isValid (Batch.referenceMoment v h1)) eqn:V1.
    + assert (V2 : isValid (Batch.referenceMoment v h2) = true) by now rewrite <- Em.
      rewrite (taitung_air_data_run v h1 K1 V1), (taitung_air_data_run v h2 K2 V2).
      rewrite (results_of_run v h1 K1), (results_of_run v h2 K2).
      assert (F : map (fun t => Fulfilled (Batch.fetched h1 t)) (Batch.window v h1)
                  = map (fun t => Fulfilled (Batch.fetched h2 t)) (Batch.window v h2)).
      { unfold Batch.fetched.
        rewrite <- (map_map (fun t => upstream h1 (Batch.request_for h1 t))
                            (fun o => Fulfilled (Batch.yield o))).
        rewrite <- (map_map (fun t => upstream h2 (Batch.request_for h2 t))
                            (fun o => Fulfilled (Batch.yield o))).
        rewrite <- (map_map (Batch.request_for h1) (upstream h1)).
        rewrite <- (map_map (Batch.request_for h2) (upstream h2)).
        now rewrite Eu. }
      rewrite F, !aggregate_spec.
      rewrite (sort_ext (Batch.by_monitordate h1) (Batch.by_monitordate h2))
        by (intros a b; unfold Batch.by_monitordate, Js.new_Date; now rewrite Ed).
      rewrite W. do 2 f_equal. apply map_ext. intros t. apply Rq.
    + rewrite invalid_reference_run by exact V1.
      rewrite invalid_reference_run by (now rewrite <- Em).
      now rewrite Ka.
Qed.

Lemma batch_depends_only_on_window_witness :
  Batch.taitung_air_data Batch.part_004 Sample.host []
  = Batch.taitung_air_data Batch.part_004 More.monitoring_host [].
Proof.
  apply (batch_depends_only_on_window Batch.part_004 Sample.host More.monitoring_host []);
    reflexivity.
Defined.

(** X23.  The batch endpoint never asks the upstream for a malformed instant:
    on every host, every request it sends carries a [monitordate] that reads
    back as a whole hour.  (The stamp of an unreadable reference time would
    be [Invalid date]; the run stops before it is used.) *)
Theorem batch_asks_whole_hours v h :
  Forall (fun request =>
            exists stamp t,
              Data.get "monitordate" (params request) = Some stamp /\
              Stamp.instant_of stamp = Some t /\
              t mod msPerHour = 0)
         (snd (Batch.taitung_air_data v h [])).
Proof.
  destruct (not_str (Batch.API_KEY h)) eqn:K.
  - rewrite missing_key_run by exact K. constructor.
  - destruct (isValid (Batch.referenceMoment v h)) eqn:V.
    + rewrite (taitung_air_data_run v h K V). cbn [snd app].
      apply Forall_forall. intros request Hr.
      apply in_map_iff in Hr as (stamp & <- & Hs).
      unfold Batch.window in Hs.
      destruct (Batch.referenceMoment v h) as [R|]; [|discriminate].
      apply (In_nth _ _ "") in Hs as (i & Hi & <-).
      rewrite allMonitorTimes_length in Hi.
      eexists. eexists. split; [reflexivity|]. split.
      * now apply allMonitorTimes_instant.
      * rewrite <- startOfHour_add. apply startOfHour_on_the_hour.
    + rewrite invalid_reference_run by exact V.
      rewrite K. constructor.
Qed.
